(** * school_demo: the admission / notice / admin core of [app.py]

    A shallow embedding of the Flask application in [src/app.py]: the three
    SQLAlchemy models, the two WTForms forms with their validator chains, the
    six request handlers, the [login_required] gate and the [create-admin]
    command line helper, followed by the properties the specification states
    about them.

    What the application delegates to its libraries is modelled as follows.
    - Text is [string]; a character is a code point below 256.
    - The relational store is three lists of rows in insertion order.  An
      attribute that Python may hold as [None] is an [option]; the primary key
      and the [default=datetime.utcnow] columns are filled in when the row is
      flushed.  A Python [int] is unbounded ([Z]); an INTEGER column of the
      store holds the signed 64-bit values.
    - The clock read by [datetime.utcnow] and the salt drawn by
      [generate_password_hash] are inputs of the step that uses them.
    - WTForms is modelled after its 3.x sources: [Field.process],
      [Field.validate] with its validator chain, [DataRequired], [Length],
      [Email].
    - [email_validator] (the syntax check behind [Email()]) and werkzeug's
      [generate_password_hash] / [check_password_hash] are parameters. *)

From Stdlib Require Import ZArith List String Ascii Bool Lia DecimalString.
From Stdlib Require Import Permutation Sorting.Sorted.
Import ListNotations.

Local Open Scope string_scope.
Local Open Scope Z_scope.

(* ================================================================= *)
(** ** Python built-ins used by the application *)

Module Py.

(** [str.isspace] on the code points below 256. *)
Definition isspace (c : ascii) : bool :=
  let n := Z.of_nat (nat_of_ascii c) in
  ((9 <=? n) && (n <=? 13)) || ((28 <=? n) && (n <=? 32))
  || (n =? 133) || (n =? 160).

Fixpoint dropwhile {A : Type} (p : A -> bool) (l : list A) : list A :=
  match l with
  | [] => []
  | x :: r => if p x then dropwhile p r else l
  end.

Definition lstrip (l : list ascii) : list ascii := dropwhile isspace l.

Definition rstrip (l : list ascii) : list ascii :=
  rev (dropwhile isspace (rev l)).

(** [s.strip()] *)
Definition strip (s : string) : string :=
  string_of_list_ascii (rstrip (lstrip (list_ascii_of_string s))).

(** [bool(s)] for a [str] *)
Definition truthy (s : string) : bool :=
  match s with
  | EmptyString => false
  | String _ _ => true
  end.

(** [bool(x)] for a value that is a [str] or [None] *)
Definition truthy_opt (x : option string) : bool :=
  match x with
  | Some s => truthy s
  | None => false
  end.

(** [len(s)] *)
Definition len (s : string) : Z := Z.of_nat (String.length s).

Definition isdigit (c : ascii) : bool :=
  let n := Z.of_nat (nat_of_ascii c) in (48 <=? n) && (n <=? 57).

Definition digit_value (c : ascii) : Z := Z.of_nat (nat_of_ascii c) - 48.

(** The digit part of an integer literal: decimal digits, single
    underscores allowed between two digits. *)
Fixpoint digits (acc : Z) (after_digit : bool) (l : list ascii) : option Z :=
  match l with
  | [] => if after_digit then Some acc else None
  | c :: r =>
      if isdigit c then digits (10 * acc + digit_value c) true r
      else if (Ascii.eqb c "_"%char) && after_digit then digits acc false r
      else None
  end.

(** The white space [int] skips around a literal: the C locale's space
    characters (tab to carriage return, and the blank) and, of the code
    points from 128 on, the two that [str.isspace] accepts.  The separators
    28 to 31 are white space for [str.strip] but not for [int]. *)
Definition int_isspace (c : ascii) : bool :=
  let n := Z.of_nat (nat_of_ascii c) in
  ((9 <=? n) && (n <=? 13)) || (n =? 32) || (n =? 133) || (n =? 160).

(** [sys.get_int_max_str_digits()], which the application leaves at its
    default. *)
Definition int_max_str_digits : nat := 4300.

(** [int(s)]: surrounding white space is dropped, then an optional sign and
    the digits are read; a literal with more digits than the limit is
    refused; [None] stands for [ValueError]. *)
Definition int (s : string) : option Z :=
  match rev (dropwhile int_isspace
               (rev (dropwhile int_isspace (list_ascii_of_string s)))) with
  | [] => None
  | c :: r =>
      let signed := Ascii.eqb c "-"%char || Ascii.eqb c "+"%char in
      let body := if signed then r else c :: r in
      if (int_max_str_digits <? List.length (filter isdigit body))%nat
      then None
      else if Ascii.eqb c "-"%char then option_map Z.opp (digits 0 false body)
      else digits 0 false body
  end.

End Py.

(* ================================================================= *)
(** ** werkzeug [MultiDict]: the submitted form fields *)

Definition MultiDict := list (string * string).

(** [formdata.getlist(name)] *)
Fixpoint getlist (name : string) (fd : MultiDict) : list string :=
  match fd with
  | [] => []
  | (k, v) :: r => if String.eqb k name then v :: getlist name r else getlist name r
  end.

(** [request.form.get(name)]: the first value, [None] when absent. *)
Definition form_get (name : string) (fd : MultiDict) : option string :=
  match getlist name fd with
  | [] => None
  | v :: _ => Some v
  end.

(* ================================================================= *)
(** ** WTForms: fields, validators, the validation chain *)

Module WTForms.

Record Field (A : Type) : Type := mkField
  { data : option A;
    process_errors : list string;
    errors : list string }.
Arguments mkField {A} _ _ _.
Arguments data {A} _.
Arguments process_errors {A} _.
Arguments errors {A} _.

Definition set_errors {A : Type} (es : list string) (f : Field A) : Field A :=
  mkField (data f) (process_errors f) es.

(** A field of a form that was built without form data (a GET). *)
Definition unbound {A : Type} : Field A := mkField None [] [].

(** [StringField.process_formdata]: the first submitted value, and the
    default [None] is kept when the name was not submitted. *)
Definition StringField (name : string) (formdata : option MultiDict)
  : Field string :=
  match formdata with
  | None => unbound
  | Some fd => mkField (form_get name fd) [] []
  end.

(** [IntegerField.process_formdata] *)
Definition IntegerField (name : string) (formdata : option MultiDict)
  : Field Z :=
  match formdata with
  | None => unbound
  | Some fd =>
      match getlist name fd with
      | [] => mkField None [] []
      | v :: _ =>
          match Py.int v with
          | Some n => mkField (Some n) [] []
          | None => mkField None ["Not a valid integer value."] []
          end
      end
  end.

(** What a validator raises. *)
Inductive raised : Type :=
| ValidationError (msg : string)
| StopValidation (msg : string).

(** A validator is called with the field; it may edit the field's error
    list and may raise. *)
Definition validator (A : Type) : Type := Field A -> Field A * option raised.

(** The test [DataRequired] performs on the field's data:
    [data and (not isinstance(data, str) or data.strip())]. *)
Class FieldData (A : Type) : Type := { has_data : A -> bool }.

#[export] Instance FieldData_str : FieldData string :=
  {| has_data := fun s => Py.truthy s && Py.truthy (Py.strip s) |}.

#[export] Instance FieldData_int : FieldData Z :=
  {| has_data := fun n => negb (n =? 0) |}.

Definition DataRequired {A : Type} `{FieldData A} : validator A :=
  fun f =>
    match data f with
    | Some d =>
        if has_data d then (f, None)
        else (set_errors [] f, Some (StopValidation "This field is required."))
    | None => (set_errors [] f, Some (StopValidation "This field is required."))
    end.

(** The message of [Length] when only [max] is given. *)
Definition length_message (max : Z) : string :=
  "Field cannot be longer than " ++ NilZero.string_of_int (Z.to_int max)
  ++ (if max =? 1 then " character." else " characters.").

(** [Length(max=...)]: [length = field.data and len(field.data) or 0]. *)
Definition Length (max : Z) : validator string :=
  fun f =>
    let length := match data f with
                  | Some s => Py.len s
                  | None => 0
                  end in
    if length <=? max then (f, None)
    else (f, Some (ValidationError (length_message max))).

(** [Email()], over the syntax check of [email_validator]. *)
Definition Email (valid_email : string -> bool) : validator string :=
  fun f =>
    match data f with
    | None => (f, Some (ValidationError "Invalid email address."))
    | Some s =>
        if valid_email s then (f, None)
        else (f, Some (ValidationError "Invalid email address."))
    end.

Definition append_error {A : Type} (msg : string) (f : Field A) : Field A :=
  set_errors (errors f ++ [msg]) f.

(** [Field._run_validation_chain] *)
Fixpoint run_validation_chain {A : Type} (vs : list (validator A))
  (f : Field A) : Field A :=
  match vs with
  | [] => f
  | v :: rest =>
      match v f with
      | (f', None) => run_validation_chain rest f'
      | (f', Some (ValidationError msg)) =>
          run_validation_chain rest (append_error msg f')
      | (f', Some (StopValidation msg)) =>
          if Py.truthy msg then append_error msg f' else f'
      end
  end.

(** [Field.validate]: start from the processing errors, run the chain. *)
Definition validate_field {A : Type} (vs : list (validator A)) (f : Field A)
  : Field A :=
  run_validation_chain vs (set_errors (process_errors f) f).

Definition no_errors {A : Type} (f : Field A) : bool :=
  match errors f with
  | [] => true
  | _ :: _ => false
  end.

End WTForms.

Import WTForms.

(* ================================================================= *)
(** ** Models *)

Module Admin.
Record t : Type := mk
  { id : option Z;
    email : option string;
    password_hash : option string;
    name : option string }.
End Admin.

Module Admission.
Record t : Type := mk
  { id : option Z;
    student_name : option string;
    student_class : option string;
    age : option Z;
    parent_email : option string;
    phone : option string;
    message : option string;
    submitted_at : option Z }.
End Admission.

Module Notice.
Record t : Type := mk
  { id : option Z;
    title : option string;
    content : option string;
    date : option Z }.
End Notice.

(* ================================================================= *)
(** ** The store: [db.session.add] / [commit] and the queries *)

Record DB : Type := mkDB
  { admins : list Admin.t;
    admissions : list Admission.t;
    notices : list Notice.t }.

Definition empty_db : DB := mkDB [] [] [].

Inductive commit_result : Type :=
| Committed (db : DB)
| IntegrityError
| OverflowError.

(** The values an INTEGER column of the SQLite store takes: the driver
    refuses to bind a Python [int] outside the signed 64-bit range. *)
Definition fits_int64 (n : Z) : bool :=
  (-9223372036854775808 <=? n) && (n <=? 9223372036854775807).

Definition binds_integer (x : option Z) : bool :=
  match x with
  | Some n => fits_int64 n
  | None => true
  end.

(** The integer primary key given to a new row: one more than the largest
    key of the table. *)
Definition next_id (ids : list (option Z)) : Z :=
  fold_right (fun i m => match i with
                         | Some n => Z.max n m
                         | None => m
                         end) 0 ids + 1.

Definition or_default {A : Type} (x : option A) (d : A) : option A :=
  match x with
  | Some _ => x
  | None => Some d
  end.

Definition is_some {A : Type} (x : option A) : bool :=
  match x with
  | Some _ => true
  | None => false
  end.

Definition option_string_eqb (x y : option string) : bool :=
  match x, y with
  | Some s, Some t => String.eqb s t
  | None, None => true
  | _, _ => false
  end.

(** [Admin.query.filter_by(email=email).first()]; a [None] argument selects
    the rows whose column is NULL. *)
Definition filter_by_email (db : DB) (email : option string) : option Admin.t :=
  find (fun a => option_string_eqb (Admin.email a) email) (admins db).

(** [Admin.query.get(user_id)] *)
Definition get_admin (db : DB) (user_id : Z) : option Admin.t :=
  find (fun a => match Admin.id a with
                 | Some i => i =? user_id
                 | None => false
                 end) (admins db).

(** Flush of a new [Admin]: [email] and [password_hash] are NOT NULL and
    [email] is UNIQUE. *)
Definition add_commit_admin (db : DB) (a : Admin.t) : commit_result :=
  match Admin.email a, Admin.password_hash a with
  | Some e, Some _ =>
      match filter_by_email db (Some e) with
      | Some _ => IntegrityError
      | None =>
          let row := Admin.mk
                       (or_default (Admin.id a) (next_id (map Admin.id (admins db))))
                       (Admin.email a) (Admin.password_hash a) (Admin.name a) in
          Committed (mkDB (admins db ++ [row]) (admissions db) (notices db))
      end
  | _, _ => IntegrityError
  end.

(** Flush of a new [Admission]: the values are bound first, and an [age]
    outside the 64-bit range raises [OverflowError]; [student_name] is NOT
    NULL; [submitted_at] defaults to the clock. *)
Definition add_commit_admission (now : Z) (db : DB) (a : Admission.t)
  : commit_result :=
  if negb (binds_integer (Admission.age a)) then OverflowError else
  match Admission.student_name a with
  | None => IntegrityError
  | Some _ =>
      let row := Admission.mk
                   (or_default (Admission.id a)
                      (next_id (map Admission.id (admissions db))))
                   (Admission.student_name a) (Admission.student_class a)
                   (Admission.age a) (Admission.parent_email a)
                   (Admission.phone a) (Admission.message a)
                   (or_default (Admission.submitted_at a) now) in
      Committed (mkDB (admins db) (admissions db ++ [row]) (notices db))
  end.

(** Flush of a new [Notice]: [title] and [content] are NOT NULL, [date]
    defaults to the clock. *)
Definition add_commit_notice (now : Z) (db : DB) (n : Notice.t)
  : commit_result :=
  match Notice.title n, Notice.content n with
  | Some _, Some _ =>
      let row := Notice.mk
                   (or_default (Notice.id n) (next_id (map Notice.id (notices db))))
                   (Notice.title n) (Notice.content n)
                   (or_default (Notice.date n) now) in
      Committed (mkDB (admins db) (admissions db) (notices db ++ [row]))
  | _, _ => IntegrityError
  end.

(** Comparison of two DateTime column values; NULL sorts below every value. *)
Definition ts_leb (x y : option Z) : bool :=
  match x, y with
  | None, _ => true
  | Some _, None => false
  | Some a, Some b => a <=? b
  end.

Section Queries.
Context {A : Type}.
Variable key : A -> option Z.

Fixpoint insert_desc (x : A) (l : list A) : list A :=
  match l with
  | [] => [x]
  | y :: r => if ts_leb (key y) (key x) then x :: l else y :: insert_desc x r
  end.

(** [query.order_by(key.desc())] *)
Definition order_by_desc (rows : list A) : list A :=
  fold_right insert_desc [] rows.

(** Each row's key is at least the key of the row after it. *)
Definition desc (x y : A) : Prop := ts_leb (key y) (key x) = true.
End Queries.

(** [query.limit(n)] *)
Definition limit {A : Type} (n : nat) (rows : list A) : list A := firstn n rows.

(* ================================================================= *)
(** ** Requests, replies, sessions *)

Inductive http_method : Type := GET | POST.

(** A request: its method, its form fields, and the result of Flask-WTF's
    check of the CSRF token it carries ([None]: the token is accepted,
    [Some msg]: [validate_csrf] raises [ValidationError(msg)]). *)
Record request : Type := mkRequest
  { method : http_method;
    form : MultiDict;
    csrf_error : option string }.

(** [FlaskForm.is_submitted] *)
Definition is_submitted (req : request) : bool :=
  match method req with
  | POST => true
  | GET => false
  end.

(** The form data a [FlaskForm] binds: [request.form] on a submission,
    nothing otherwise. *)
Definition formdata (req : request) : option MultiDict :=
  if is_submitted req then Some (form req) else None.

(** The check of the [csrf_token] field. *)
Definition validate_csrf_token (req : request) : validator string :=
  fun f =>
    match csrf_error req with
    | None => (f, None)
    | Some msg => (f, Some (ValidationError msg))
    end.

(** [FlaskForm.validate_on_submit]: [is_submitted() and validate()]. *)
Definition validate_on_submit {F : Type} (validate : F -> F * bool)
  (req : request) (f : F) : F * bool :=
  if is_submitted req then validate f else (f, false).

Definition field_errors {A : Type} (name : string) (f : Field A)
  : list (string * list string) :=
  match errors f with
  | [] => []
  | _ :: _ => [(name, errors f)]
  end.

Module AdmissionForm.

Record t : Type := mk
  { csrf_token : Field string;
    student_name : Field string;
    student_class : Field string;
    age : Field Z;
    parent_email : Field string;
    phone : Field string;
    message : Field string }.

(** [AdmissionForm()]: every field processes the request's form data.
    ([submit] carries no validator and no handler reads it.) *)
Definition bind (req : request) : t :=
  let fd := formdata req in
  mk (StringField "csrf_token" fd)
     (StringField "student_name" fd)
     (StringField "student_class" fd)
     (IntegerField "age" fd)
     (StringField "parent_email" fd)
     (StringField "phone" fd)
     (StringField "message" fd).

(** [form.validate()]: every field is validated, each with the validators
    of its declaration; the form is valid when no field has an error. *)
Definition validate (valid_email : string -> bool) (req : request) (f : t)
  : t * bool :=
  let f' :=
    mk (validate_field [validate_csrf_token req] (csrf_token f))
       (validate_field [DataRequired; Length 200] (student_name f))
       (validate_field [DataRequired] (student_class f))
       (validate_field [DataRequired] (age f))
       (validate_field [Email valid_email; Length 150] (parent_email f))
       (validate_field [Length 50] (phone f))
       (validate_field [] (message f)) in
  (f', no_errors (csrf_token f') && no_errors (student_name f')
       && no_errors (student_class f') && no_errors (age f')
       && no_errors (parent_email f') && no_errors (phone f')
       && no_errors (message f')).

(** [form.errors] *)
Definition errors (f : t) : list (string * list string) :=
  field_errors "csrf_token" (csrf_token f)
  ++ field_errors "student_name" (student_name f)
  ++ field_errors "student_class" (student_class f)
  ++ field_errors "age" (age f)
  ++ field_errors "parent_email" (parent_email f)
  ++ field_errors "phone" (phone f)
  ++ field_errors "message" (message f).

End AdmissionForm.

Module LoginForm.

Record t : Type := mk
  { csrf_token : Field string;
    email : Field string;
    password : Field string }.

Definition bind (req : request) : t :=
  let fd := formdata req in
  mk (StringField "csrf_token" fd)
     (StringField "email" fd)
     (StringField "password" fd).

Definition validate (valid_email : string -> bool) (req : request) (f : t)
  : t * bool :=
  let f' :=
    mk (validate_field [validate_csrf_token req] (csrf_token f))
       (validate_field [DataRequired; Email valid_email] (email f))
       (validate_field [DataRequired] (password f)) in
  (f', no_errors (csrf_token f') && no_errors (email f')
       && no_errors (password f')).

Definition errors (f : t) : list (string * list string) :=
  field_errors "csrf_token" (csrf_token f)
  ++ field_errors "email" (email f)
  ++ field_errors "password" (password f).

End LoginForm.

Inductive Response : Type :=
| redirect (endpoint : string)
| render_index (notices : list Notice.t)
| render_admission (form : AdmissionForm.t)
| render_admin_login (form : LoginForm.t)
| render_admin_dashboard (admissions : list Admission.t) (notices : list Notice.t)
| internal_server_error
| method_not_allowed.

(** What a handler hands back: the messages it flashed, as
    (category, message), and the response. *)
Record Reply : Type := mkReply
  { flashed : list (string * string);
    response : Response }.

(** The store together with the one browser session: the identifier
    Flask-Login keeps in the session cookie, if any. *)
Record World : Type := mkWorld
  { db : DB;
    user_id : option Z }.

Definition init : World := mkWorld empty_db None.

(** [load_user] *)
Definition load_user (w : World) (uid : Z) : option Admin.t := get_admin (db w) uid.

(** [current_user] *)
Definition current_user (w : World) : option Admin.t :=
  match user_id w with
  | Some uid => load_user w uid
  | None => None
  end.

Definition is_authenticated (w : World) : bool := is_some (current_user w).

(** [login_user(admin)]: the session keeps the row's primary key. *)
Definition login_user (w : World) (a : Admin.t) : World :=
  mkWorld (db w) (Admin.id a).

(** [logout_user()] *)
Definition logout_user (w : World) : World := mkWorld (db w) None.

(** [LoginManager.unauthorized] with [login_view = "admin_login"]. *)
Definition unauthorized : Reply :=
  mkReply [("message", "Please log in to access this page.")] (redirect "admin_login").

(** [@login_required] *)
Definition login_required (view : World -> World * Reply) (w : World)
  : World * Reply :=
  if is_authenticated w then view w else (w, unauthorized).

(* ================================================================= *)
(** ** Reference instances of the library parameters, for the examples *)

Module Demo.

Fixpoint split_at (c : ascii) (l : list ascii) : option (list ascii * list ascii) :=
  match l with
  | [] => None
  | x :: r =>
      if Ascii.eqb x c then Some ([], r)
      else match split_at c r with
           | Some (a, b) => Some (x :: a, b)
           | None => None
           end
  end.

(** A crude address check: one ["@"], something on both sides, no blank. *)
Definition valid_email (s : string) : bool :=
  match split_at "@"%char (list_ascii_of_string s) with
  | Some (x :: _ as loc, y :: _ as dom) =>
      negb (existsb (Ascii.eqb "@"%char) dom)
      && negb (existsb Py.isspace (loc ++ dom))
  | _ => false
  end.

Definition digest (salt password : string) : string :=
  string_of_list_ascii (rev (list_ascii_of_string (salt ++ "/" ++ password))).

Definition generate_password_hash (salt password : string) : string :=
  "demo$" ++ salt ++ "$" ++ digest salt password.

Definition check_password_hash (pwhash password : string) : bool :=
  match split_at "$"%char (list_ascii_of_string pwhash) with
  | Some (_, rest) =>
      match split_at "$"%char rest with
      | Some (salt, d) =>
          String.eqb (string_of_list_ascii d)
            (digest (string_of_list_ascii salt) password)
      | None => false
      end
  | None => false
  end.

(** Sample requests and stores. *)
Definition post (fd : MultiDict) : request := mkRequest POST fd None.

Definition asha : request :=
  post [("student_name", "Asha Rao"); ("student_class", "Class 9");
        ("age", "14"); ("parent_email", "p@example.com");
        ("phone", ""); ("message", "")].

Definition root : Admin.t :=
  Admin.mk (Some 1) (Some "a@b.c")
    (Some (generate_password_hash "s1" "pw")) (Some "Root").

Definition world : World := mkWorld (mkDB [root] [] []) None.

Definition signed_in : World := mkWorld (mkDB [root] [] []) (Some 1).

Definition notice (i date : Z) : Notice.t :=
  Notice.mk (Some i) (Some "Title") (Some "Body") (Some date).

Definition busy : World :=
  mkWorld (mkDB [root] []
             [notice 1 30; notice 2 10; notice 3 60; notice 4 20;
              notice 5 50; notice 6 40])
    (Some 1).

(** A text of [n] letters. *)
Definition letters (n : nat) : string := string_of_list_ascii (repeat "x"%char n).

Definition earlier : Admission.t :=
  Admission.mk (Some 1) (Some "Ravi Iyer") (Some "Class 7") (Some 12)
    (Some "r@example.com") None None (Some 50).

Definition with_earlier : World :=
  mkWorld (mkDB [root] [earlier] []) (Some 1).

Definition get (fd : MultiDict) : request := mkRequest GET fd None.

(** A submission the form accepts, with the age 2^63. *)
Definition too_old : request :=
  post [("student_name", "Asha Rao"); ("student_class", "Class 9");
        ("age", "9223372036854775808"); ("parent_email", "p@example.com")].

End Demo.

(* ================================================================= *)
(** ** Routes, handlers and the command line helper *)

Inductive route : Type :=
| route_index
| route_admission
| route_admin_login
| route_admin_dashboard
| route_admin_logout
| route_add_notice.

(** The [methods=[...]] of each [@app.route]. *)
Definition allowed (r : route) (m : http_method) : bool :=
  match r, m with
  | route_admission, _ => true
  | route_admin_login, _ => true
  | route_add_notice, POST => true
  | route_add_notice, GET => false
  | _, GET => true
  | _, POST => false
  end.

(** What a run of [flask create-admin] ends with. *)
Inductive cli_result : Type :=
| printed (line : string)
| raised_IntegrityError
| raised_OverflowError.

(** What happens to the system: a request of the browser, served at time
    [now], or a run of the command line helper. *)
Inductive event : Type :=
| http (r : route) (req : request) (now : Z)
| cli_create_admin (email name password salt : string).

Inductive outcome : Type :=
| replied (r : Reply)
| cli (c : cli_result).

Section App.

Variable valid_email : string -> bool.
Variable generate_password_hash : string -> string -> string.
Variable check_password_hash : string -> string -> bool.

(** [Admin.set_password] *)
Definition set_password (salt : string) (self : Admin.t) (password : string)
  : Admin.t :=
  Admin.mk (Admin.id self) (Admin.email self)
    (Some (generate_password_hash salt password)) (Admin.name self).

(** [Admin.check_password]; [None] when werkzeug raises on a [None]
    argument. *)
Definition check_password (self : Admin.t) (password : option string)
  : option bool :=
  match Admin.password_hash self, password with
  | Some h, Some p => Some (check_password_hash h p)
  | _, _ => None
  end.

(** [GET /] *)
Definition index (w : World) : World * Reply :=
  let notices := limit 5 (order_by_desc Notice.date (notices (db w))) in
  (w, mkReply [] (render_index notices)).

(** [GET, POST /admission] *)
Definition admission (now : Z) (req : request) (w : World) : World * Reply :=
  let (form, ok) :=
    validate_on_submit (AdmissionForm.validate valid_email req) req
      (AdmissionForm.bind req) in
  if ok then
    let new := Admission.mk None
                 (data (AdmissionForm.student_name form))
                 (data (AdmissionForm.student_class form))
                 (data (AdmissionForm.age form))
                 (data (AdmissionForm.parent_email form))
                 (data (AdmissionForm.phone form))
                 (data (AdmissionForm.message form))
                 None in
    match add_commit_admission now (db w) new with
    | Committed db' =>
        (mkWorld db' (user_id w),
         mkReply [("success", "Application submitted. We will contact you soon.")]
           (redirect "admission"))
    | IntegrityError => (w, mkReply [] internal_server_error)
    | OverflowError => (w, mkReply [] internal_server_error)
    end
  else (w, mkReply [] (render_admission form)).

(** [GET, POST /admin/login] *)
Definition admin_login (req : request) (w : World) : World * Reply :=
  let (form, ok) :=
    validate_on_submit (LoginForm.validate valid_email req) req
      (LoginForm.bind req) in
  if ok then
    match filter_by_email (db w) (data (LoginForm.email form)) with
    | Some admin =>
        match check_password admin (data (LoginForm.password form)) with
        | Some true =>
            (login_user w admin,
             mkReply [("success", "Logged in successfully")]
               (redirect "admin_dashboard"))
        | Some false =>
            (w, mkReply [("danger", "Invalid credentials")]
                  (render_admin_login form))
        | None => (w, mkReply [] internal_server_error)
        end
    | None =>
        (w, mkReply [("danger", "Invalid credentials")]
              (render_admin_login form))
    end
  else (w, mkReply [] (render_admin_login form)).

(** [GET /admin/dashboard] *)
Definition admin_dashboard : World -> World * Reply :=
  login_required (fun w =>
    let admissions :=
      limit 50 (order_by_desc Admission.submitted_at (admissions (db w))) in
    let notices := order_by_desc Notice.date (notices (db w)) in
    (w, mkReply [] (render_admin_dashboard admissions notices))).

(** [GET /admin/logout] *)
Definition admin_logout : World -> World * Reply :=
  login_required (fun w => (logout_user w, mkReply [] (redirect "admin_login"))).

(** [POST /admin/add_notice] *)
Definition add_notice (now : Z) (req : request) : World -> World * Reply :=
  login_required (fun w =>
    let title := form_get "title" (form req) in
    let content := form_get "content" (form req) in
    if Py.truthy_opt title && Py.truthy_opt content then
      let n := Notice.mk None title content None in
      match add_commit_notice now (db w) n with
      | Committed db' =>
          (mkWorld db' (user_id w),
           mkReply [("success", "Notice added")] (redirect "admin_dashboard"))
      | IntegrityError => (w, mkReply [] internal_server_error)
      | OverflowError => (w, mkReply [] internal_server_error)
      end
    else (w, mkReply [] (redirect "admin_dashboard"))).

(** [flask create-admin]; the three arguments are what the operator typed
    at the prompts. *)
Definition create_admin (salt : string) (email_in name_in password : string)
  (d : DB) : DB * cli_result :=
  let email := Py.strip email_in in
  let name := Py.strip name_in in
  if negb (Py.truthy email) || negb (Py.truthy password) then
    (d, printed "Email and password are required")
  else if is_some (filter_by_email d (Some email)) then
    (d, printed "Admin already exists")
  else
    let admin := Admin.mk None (Some email) None (Some name) in
    let admin := set_password salt admin password in
    match add_commit_admin d admin with
    | Committed d' => (d', printed "Admin created.")
    | IntegrityError => (d, raised_IntegrityError)
    | OverflowError => (d, raised_OverflowError)
    end.

(** Routing: a method the route does not list is answered with 405. *)
Definition dispatch (r : route) (req : request) (now : Z) (w : World)
  : World * Reply :=
  if allowed r (method req) then
    match r with
    | route_index => index w
    | route_admission => admission now req w
    | route_admin_login => admin_login req w
    | route_admin_dashboard => admin_dashboard w
    | route_admin_logout => admin_logout w
    | route_add_notice => add_notice now req w
    end
  else (w, mkReply [] method_not_allowed).

Definition step (w : World) (e : event) : World * outcome :=
  match e with
  | http r req now =>
      let (w', rep) := dispatch r req now w in (w', replied rep)
  | cli_create_admin email name password salt =>
      let (d', res) := create_admin salt email name password (db w) in
      (mkWorld d' (user_id w), cli res)
  end.

Fixpoint run (w : World) (es : list event) : World :=
  match es with
  | [] => w
  | e :: rest => run (fst (step w e)) rest
  end.

End App.

(* ================================================================= *)
(** ** Vocabulary of the specification *)

(** A submission lacks a field when the name was not sent or was sent
    empty. *)
Definition missing (name : string) (req : request) : Prop :=
  form_get name (form req) = None \/ form_get name (form req) = Some "".

(** The text sent for a field does not read as an integer. *)
Definition not_an_integer (name : string) (req : request) : Prop :=
  exists v, form_get name (form req) = Some v /\ Py.int v = None.

(** The age of the submission, read as an integer, is one the store's
    INTEGER column holds. *)
Definition age_fits_store (req : request) : Prop :=
  forall v n,
    form_get "age" (form req) = Some v -> Py.int v = Some n ->
    fits_int64 n = true.

(** The age of the submission reads as an integer the store's INTEGER
    column does not hold. *)
Definition age_overflows (req : request) : Prop :=
  exists v n,
    form_get "age" (form req) = Some v /\ Py.int v = Some n
    /\ fits_int64 n = false.

(** The fields of an admission submission that the specification calls
    offending: a required field that is missing, an age that is not an
    integer. *)
Inductive offending (req : request) : string -> Prop :=
| offending_student_name :
    missing "student_name" req -> offending req "student_name"
| offending_student_class :
    missing "student_class" req -> offending req "student_class"
| offending_age_missing :
    missing "age" req -> offending req "age"
| offending_age_not_integer :
    not_an_integer "age" req -> offending req "age"
| offending_parent_email :
    missing "parent_email" req -> offending req "parent_email".

(** How the bootstrap helper reports a duplicate email: its own message, or
    the store's uniqueness error. *)
Definition constraint_violation (r : cli_result) : Prop :=
  r = printed "Admin already exists" \/ r = raised_IntegrityError.

(** What one operation may do to the store: nothing, or append one row to
    one table. *)
Inductive db_grows (d : DB) : DB -> Prop :=
| grows_none : db_grows d d
| grows_admin (a : Admin.t) :
    db_grows d (mkDB (admins d ++ [a]) (admissions d) (notices d))
| grows_admission (a : Admission.t) :
    db_grows d (mkDB (admins d) (admissions d ++ [a]) (notices d))
| grows_notice (n : Notice.t) :
    db_grows d (mkDB (admins d) (admissions d) (notices d ++ [n])).

(** The Administrator row [a] was written by a run of the bootstrap helper
    recorded in [es]: its four columns are a key, the email and the name
    typed at the prompts, trimmed, and what [generate_password_hash]
    returned for the password typed there.  The password is in no column
    but as the argument of that function. *)
Definition hashed_from (generate_password_hash : string -> string -> string)
  (es : list event) (a : Admin.t) : Prop :=
  exists email name password salt key,
    In (cli_create_admin email name password salt) es
    /\ Py.strip email <> ""
    /\ password <> ""
    /\ a = Admin.mk (Some key) (Some (Py.strip email))
             (Some (generate_password_hash salt password))
             (Some (Py.strip name)).

(** Two events are the same but for the password of a run of the helper,
    and there the two passwords are both empty or both not, and have the
    same hash. *)
Inductive same_but_password
  (generate_password_hash : string -> string -> string) : event -> event -> Prop :=
| same_http (r : route) (req : request) (now : Z) :
    same_but_password generate_password_hash (http r req now) (http r req now)
| same_cli (email name password password' salt : string) :
    (password = "" <-> password' = "") ->
    generate_password_hash salt password
    = generate_password_hash salt password' ->
    same_but_password generate_password_hash
      (cli_create_admin email name password salt)
      (cli_create_admin email name password' salt).

(** ** Vocabulary of the further properties *)

(** What [AdmissionForm] asks of a submission, field by field. *)
Definition admission_acceptable (valid_email : string -> bool) (req : request)
  : Prop :=
  method req = POST
  /\ csrf_error req = None
  /\ (exists name, form_get "student_name" (form req) = Some name
                   /\ has_data name = true /\ Py.len name <= 200)
  /\ (exists cls, form_get "student_class" (form req) = Some cls
                  /\ has_data cls = true)
  /\ (exists v n, form_get "age" (form req) = Some v
                  /\ Py.int v = Some n /\ n <> 0)
  /\ (exists mail, form_get "parent_email" (form req) = Some mail
                   /\ valid_email mail = true /\ Py.len mail <= 150)
  /\ (forall ph, form_get "phone" (form req) = Some ph -> Py.len ph <= 50).

(** What [LoginForm] asks of a submission. *)
Definition login_acceptable (valid_email : string -> bool) (req : request)
  : Prop :=
  method req = POST
  /\ csrf_error req = None
  /\ (exists e, form_get "email" (form req) = Some e
                /\ has_data e = true /\ valid_email e = true)
  /\ (exists p, form_get "password" (form req) = Some p /\ has_data p = true).

(** The column rules of the schema: primary keys are set, and so are the
    [nullable=False] columns and the defaulted time stamps. *)
Definition admin_columns_set (a : Admin.t) : Prop :=
  Admin.id a <> None /\ Admin.email a <> None /\ Admin.password_hash a <> None.

Definition admission_columns_set (a : Admission.t) : Prop :=
  Admission.id a <> None /\ Admission.student_name a <> None
  /\ Admission.submitted_at a <> None.

Definition notice_columns_set (n : Notice.t) : Prop :=
  Notice.id n <> None /\ Notice.title n <> None /\ Notice.content n <> None
  /\ Notice.date n <> None.

Definition columns_set (d : DB) : Prop :=
  Forall admin_columns_set (admins d)
  /\ Forall admission_columns_set (admissions d)
  /\ Forall notice_columns_set (notices d).

(** No two rows of a table share a primary key. *)
Definition keys_distinct (d : DB) : Prop :=
  NoDup (map Admin.id (admins d))
  /\ NoDup (map Admission.id (admissions d))
  /\ NoDup (map Notice.id (notices d)).

(** No two Administrators share an email. *)
Definition emails_distinct (d : DB) : Prop :=
  NoDup (map Admin.email (admins d)).

(** The time stamp [t] is later than the time stamp of every listed row. *)
Definition later_than_all {A : Type} (key : A -> option Z) (t : Z)
  (rows : list A) : Prop :=
  forall r, In r rows -> ts_leb (Some t) (key r) = false.

(** The request is the one that logs the session out. *)
Definition is_logout (e : event) : bool :=
  match e with
  | http route_admin_logout req _ =>
      match method req with
      | GET => true
      | POST => false
      end
  | _ => false
  end.

(** The requests that may change the session: those to the login and logout
    routes. *)
Definition touches_session (e : event) : bool :=
  match e with
  | http route_admin_login _ _ => true
  | http route_admin_logout _ _ => true
  | _ => false
  end.

(** The text of a field's error list, as the templates would show it. *)
Definition required_message : string := "This field is required.".

Definition invalid_email_message : string := "Invalid email address.".

(** Validators report on the data; they do not change it. *)
Definition keeps_data {A : Type} (v : validator A) : Prop :=
  forall f, data (fst (v f)) = data f.

(* ================================================================= *)
(** * Properties *)

(** ** Python built-ins at sample inputs *)

Example int_samples :
  map Py.int [" 12 "; "-0"; "1_000"; "007"; "+5"]
  = [Some 12; Some 0; Some 1000; Some 7; Some 5]
  /\ map Py.int [""; "  "; "fourteen"; "1__0"; "_1"; "1_"; "- 1"; "12a"; "0x10"]
     = [None; None; None; None; None; None; None; None; None].
Proof. split; reflexivity. Qed.

(** [int] skips the blank and the no-break space but not the separator 28,
    which [str.strip] drops; it reads 4300 digits and refuses 4301. *)
Example int_limits :
  Py.int (String (ascii_of_nat 160) " 12 ") = Some 12
  /\ Py.int (String (ascii_of_nat 28) "12") = None
  /\ Py.strip (String (ascii_of_nat 28) "12") = "12"
  /\ is_some (Py.int (string_of_list_ascii (repeat "1"%char 4300))) = true
  /\ Py.int (string_of_list_ascii (repeat "1"%char 4301)) = None.
Proof. repeat split; vm_compute; reflexivity. Qed.

(** The bounds of the store's INTEGER column. *)
Example fits_int64_bounds :
  map fits_int64 [-9223372036854775809; -9223372036854775808; 0;
                  9223372036854775807; 9223372036854775808]
  = [false; true; true; true; false].
Proof. reflexivity. Qed.

Example strip_samples :
  Py.strip "  a b  " = "a b" /\ Py.strip "   " = "" /\ Py.strip "" = "".
Proof. repeat split; reflexivity. Qed.

(** ** Validation chains *)

Lemma truthy_true_inv (s : string) : Py.truthy s = true -> s <> "".
Proof. destruct s; simpl; congruence. Qed.

Lemma truthy_of_nonempty (s : string) : s <> "" -> Py.truthy s = true.
Proof. destruct s; simpl; congruence. Qed.

(** A field that fails [DataRequired] ends with exactly that one message,
    whatever comes after it in the chain and whatever processing reported. *)
Lemma DataRequired_fails {A : Type} `{FieldData A} (vs : list (validator A))
  (f : Field A) :
  match data f with
  | Some d => has_data d = false
  | None => True
  end ->
  validate_field (DataRequired :: vs) f
  = mkField (data f) (process_errors f) ["This field is required."].
Proof.
  destruct f as [d pe es]. simpl. intros Hd.
  unfold validate_field, DataRequired. simpl.
  destruct d as [d|].
  - rewrite Hd. reflexivity.
  - reflexivity.
Qed.

(** A field that passes [DataRequired] goes on through the rest of the
    chain. *)
Lemma DataRequired_passes {A : Type} `{FieldData A} (vs : list (validator A))
  (f : Field A) (d : A) :
  data f = Some d -> has_data d = true ->
  validate_field (DataRequired :: vs) f = validate_field vs f.
Proof.
  destruct f as [d0 pe es]. simpl. intros -> Hd.
  unfold validate_field, DataRequired. simpl. rewrite Hd. reflexivity.
Qed.

(** A chain that starts with [DataRequired] leaves no error only when the
    field holds data that passes its test. *)
Lemma DataRequired_no_errors {A : Type} `{FieldData A} (vs : list (validator A))
  (f : Field A) :
  no_errors (validate_field (DataRequired :: vs) f) = true ->
  exists d, data f = Some d /\ has_data d = true.
Proof.
  intros Hn. destruct (data f) as [d|] eqn:E.
  - destruct (has_data d) eqn:Hd.
    + exists d. split; [reflexivity | exact Hd].
    + rewrite DataRequired_fails in Hn by (rewrite E; exact Hd).
      discriminate.
  - rewrite DataRequired_fails in Hn by (rewrite E; exact I).
    discriminate.
Qed.

Lemma has_data_str_nonempty (s : string) : has_data s = true -> s <> "".
Proof.
  simpl. intros H. apply andb_prop in H. destruct H as [H _].
  now apply truthy_true_inv.
Qed.

Lemma has_data_int_nonzero (n : Z) : has_data n = true <-> n <> 0.
Proof.
  simpl. rewrite negb_true_iff, Z.eqb_neq. reflexivity.
Qed.

(** The [Email(); Length(max)] chain on a field without processing errors. *)
Lemma Email_Length_no_errors (valid_email : string -> bool) (max : Z)
  (d : option string) :
  no_errors (validate_field [Email valid_email; Length max] (mkField d [] [])) = true ->
  exists s, d = Some s /\ valid_email s = true /\ Py.len s <= max.
Proof.
  unfold validate_field, Email, Length. simpl.
  destruct d as [s|]; simpl.
  - destruct (valid_email s) eqn:Ev; simpl.
    + destruct (Py.len s <=? max) eqn:El; simpl; intros Hn; try discriminate.
      exists s. repeat split; trivial. now apply Z.leb_le.
    + destruct (Py.len s <=? max); simpl; discriminate.
  - destruct (0 <=? max); simpl; discriminate.
Qed.

Lemma Email_rejects (valid_email : string -> bool) (max : Z) (d : option string) :
  match d with
  | Some s => valid_email s = false
  | None => True
  end ->
  In "Invalid email address."
    (errors (validate_field [Email valid_email; Length max] (mkField d [] []))).
Proof.
  unfold validate_field, Email, Length. simpl.
  destruct d as [s|]; simpl.
  - intros ->. simpl. destruct (Py.len s <=? max); simpl; auto.
  - intros _. destruct (0 <=? max); simpl; auto.
Qed.

Lemma DataRequired_keeps_data {A : Type} `{FieldData A} :
  keeps_data (DataRequired (A := A)).
Proof.
  intros f. unfold DataRequired.
  destruct (data f) as [d|] eqn:E; [destruct (has_data d)|]; simpl; auto.
Qed.

Lemma Length_keeps_data (max : Z) : keeps_data (Length max).
Proof.
  intros f. unfold Length.
  destruct (_ <=? max); reflexivity.
Qed.

Lemma Email_keeps_data (valid_email : string -> bool) :
  keeps_data (Email valid_email).
Proof.
  intros f. unfold Email.
  destruct (data f) as [s|] eqn:E; [destruct (valid_email s)|]; simpl; auto.
Qed.

Lemma validate_csrf_token_keeps_data (req : request) :
  keeps_data (validate_csrf_token req).
Proof.
  intros f. unfold validate_csrf_token.
  destruct (csrf_error req); reflexivity.
Qed.

Create HintDb validators.

#[local] Hint Resolve DataRequired_keeps_data Length_keeps_data
  Email_keeps_data validate_csrf_token_keeps_data : validators.

Lemma run_validation_chain_data {A : Type} (vs : list (validator A)) :
  Forall keeps_data vs ->
  forall f, data (run_validation_chain vs f) = data f.
Proof.
  induction 1 as [|v vs Hv _ IH]; intros f; simpl.
  - reflexivity.
  - specialize (Hv f). destruct (v f) as [f' [[msg|msg]|]]; simpl in Hv.
    + rewrite IH. exact Hv.
    + destruct (Py.truthy msg); exact Hv.
    + rewrite IH. exact Hv.
Qed.

Lemma validate_field_data {A : Type} (vs : list (validator A)) (f : Field A) :
  Forall keeps_data vs -> data (validate_field vs f) = data f.
Proof.
  intros Hvs. unfold validate_field.
  rewrite run_validation_chain_data by assumption. reflexivity.
Qed.

Ltac keeps := repeat constructor; auto with validators.

(** ** The form bound to a submission *)

Lemma formdata_POST (req : request) :
  method req = POST -> formdata req = Some (form req).
Proof. unfold formdata, is_submitted. now intros ->. Qed.

Lemma is_submitted_POST (req : request) :
  is_submitted req = true <-> method req = POST.
Proof. unfold is_submitted. destruct (method req); split; congruence. Qed.

Lemma IntegerField_data (name : string) (fd : MultiDict) (n : Z) :
  data (IntegerField name (Some fd)) = Some n ->
  exists v, form_get name fd = Some v /\ Py.int v = Some n.
Proof.
  unfold IntegerField, form_get.
  destruct (getlist name fd) as [|v r]; simpl; [discriminate|].
  destruct (Py.int v) as [m|] eqn:E; simpl; [|discriminate].
  intros [= ->]. now exists v.
Qed.

Lemma IntegerField_parsed (name : string) (fd : MultiDict) (v : string) :
  form_get name fd = Some v ->
  IntegerField name (Some fd)
  = match Py.int v with
    | Some n => mkField (Some n) [] []
    | None => mkField None ["Not a valid integer value."] []
    end.
Proof.
  unfold IntegerField, form_get.
  destruct (getlist name fd) as [|v' r]; [discriminate|].
  now intros [= ->].
Qed.

Lemma IntegerField_absent (name : string) (fd : MultiDict) :
  form_get name fd = None -> IntegerField name (Some fd) = mkField None [] [].
Proof.
  unfold IntegerField, form_get.
  destruct (getlist name fd) as [|v' r]; [reflexivity|discriminate].
Qed.

(** ** Submit admission *)

Section Admission_properties.

Variable valid_email : string -> bool.

(** What a submission must look like for [AdmissionForm] to validate. *)
Lemma AdmissionForm_valid_inv (req : request) (f : AdmissionForm.t) :
  validate_on_submit (AdmissionForm.validate valid_email req) req
    (AdmissionForm.bind req) = (f, true) ->
  method req = POST
  /\ (exists name, form_get "student_name" (form req) = Some name
                   /\ data (AdmissionForm.student_name f) = Some name)
  /\ (exists cls, form_get "student_class" (form req) = Some cls
                  /\ data (AdmissionForm.student_class f) = Some cls)
  /\ (exists v n, form_get "age" (form req) = Some v /\ Py.int v = Some n
                  /\ data (AdmissionForm.age f) = Some n)
  /\ (exists mail, form_get "parent_email" (form req) = Some mail
                   /\ valid_email mail = true /\ Py.len mail <= 150
                   /\ data (AdmissionForm.parent_email f) = Some mail)
  /\ data (AdmissionForm.phone f) = form_get "phone" (form req)
  /\ data (AdmissionForm.message f) = form_get "message" (form req).
Proof.
  unfold validate_on_submit.
  destruct (is_submitted req) eqn:Hs; [|discriminate].
  apply is_submitted_POST in Hs.
  unfold AdmissionForm.validate, AdmissionForm.bind.
  rewrite (formdata_POST _ Hs).
  intros [= <- Hok].
  rewrite !andb_true_iff in Hok.
  destruct Hok as [[[[[[_ Hname] Hcls] Hage] Hmail] _] _].
  cbn [AdmissionForm.student_name AdmissionForm.student_class AdmissionForm.age
       AdmissionForm.parent_email AdmissionForm.phone AdmissionForm.message] in *.
  rewrite !validate_field_data by keeps.
  split; [exact Hs|].
  repeat split.
  - apply DataRequired_no_errors in Hname. destruct Hname as (s & E & _).
    exists s. split; exact E.
  - apply DataRequired_no_errors in Hcls. destruct Hcls as (s & E & _).
    exists s. split; exact E.
  - apply DataRequired_no_errors in Hage. destruct Hage as (n & E & _).
    destruct (IntegerField_data "age" (form req) n E) as (v & Ev & Ei).
    exists v, n. repeat split; assumption.
  - apply (Email_Length_no_errors valid_email 150 (form_get "parent_email" (form req)))
      in Hmail.
    destruct Hmail as (s & E & Ev & El).
    exists s. repeat split; assumption.
Qed.


Lemma field_errors_In {A : Type} (name : string) (f : Field A) :
  errors f <> [] -> In (name, errors f) (field_errors name f).
Proof.
  unfold field_errors. destruct (errors f); [congruence|]. intros _. now left.
Qed.

(** A submission on which validation fails is answered with the form and
    its errors, and the world is left as it was. *)
Lemma admission_rejected (now : Z) (req : request) (w : World) :
  method req = POST ->
  snd (AdmissionForm.validate valid_email req (AdmissionForm.bind req)) = false ->
  admission valid_email now req w
  = (w, mkReply []
          (render_admission
             (fst (AdmissionForm.validate valid_email req (AdmissionForm.bind req))))).
Proof.
  intros Hp Hf. unfold admission, validate_on_submit.
  apply is_submitted_POST in Hp. rewrite Hp.
  destruct (AdmissionForm.validate valid_email req (AdmissionForm.bind req))
    as [f ok].
  simpl in Hf. subst ok. reflexivity.
Qed.

Lemma required_text_missing (name : string) (req : request)
  (vs : list (validator string)) :
  missing name req ->
  errors (validate_field (DataRequired :: vs) (StringField name (Some (form req))))
  = ["This field is required."].
Proof.
  intros Hm. rewrite DataRequired_fails; [reflexivity|].
  unfold StringField. cbn [data].
  destruct Hm as [-> | ->]; [exact I | reflexivity].
Qed.

Lemma required_age_without_data (req : request) :
  missing "age" req \/ not_an_integer "age" req ->
  errors (validate_field [DataRequired] (IntegerField "age" (Some (form req))))
  = ["This field is required."].
Proof.
  intros H.
  assert (Hd : data (IntegerField "age" (Some (form req))) = None).
  { destruct H as [[Ha | Ha] | (v & Ha & Hi)].
    - now rewrite IntegerField_absent.
    - now rewrite (IntegerField_parsed _ _ _ Ha).
    - rewrite (IntegerField_parsed _ _ _ Ha), Hi. reflexivity. }
  rewrite DataRequired_fails; [reflexivity|]. now rewrite Hd.
Qed.

Hypothesis valid_email_empty : valid_email "" = false.

Lemma parent_email_missing (req : request) :
  missing "parent_email" req ->
  In "Invalid email address."
    (errors (validate_field [Email valid_email; Length 150]
               (StringField "parent_email" (Some (form req))))).
Proof.
  intros Hm. apply Email_rejects.
  destruct Hm as [-> | ->]; [exact I | exact valid_email_empty].
Qed.

(** Every offending field carries an error after validation. *)
Lemma offending_has_errors (req : request) (n : string) :
  method req = POST ->
  offending req n ->
  exists es,
    In (n, es)
      (AdmissionForm.errors
         (fst (AdmissionForm.validate valid_email req (AdmissionForm.bind req))))
    /\ es <> [].
Proof.
  intros Hp Ho.
  unfold AdmissionForm.validate, AdmissionForm.bind, AdmissionForm.errors.
  rewrite (formdata_POST _ Hp).
  cbn [fst AdmissionForm.csrf_token AdmissionForm.student_name
       AdmissionForm.student_class AdmissionForm.age
       AdmissionForm.parent_email AdmissionForm.phone AdmissionForm.message].
  destruct Ho as [Hm | Hm | Hm | Hm | Hm].
  - eexists. split.
    + apply in_or_app. right. apply in_or_app. left.
      apply field_errors_In. rewrite required_text_missing by exact Hm.
      discriminate.
    + rewrite required_text_missing by exact Hm. discriminate.
  - eexists. split.
    + do 2 (apply in_or_app; right). apply in_or_app. left.
      apply field_errors_In. rewrite required_text_missing by exact Hm.
      discriminate.
    + rewrite required_text_missing by exact Hm. discriminate.
  - eexists. split.
    + do 3 (apply in_or_app; right). apply in_or_app. left.
      apply field_errors_In.
      rewrite required_age_without_data by (left; exact Hm). discriminate.
    + rewrite required_age_without_data by (left; exact Hm). discriminate.
  - eexists. split.
    + do 3 (apply in_or_app; right). apply in_or_app. left.
      apply field_errors_In.
      rewrite required_age_without_data by (right; exact Hm). discriminate.
    + rewrite required_age_without_data by (right; exact Hm). discriminate.
  - pose proof (parent_email_missing req Hm) as Hin.
    eexists. split.
    + do 4 (apply in_or_app; right). apply in_or_app. left.
      apply field_errors_In. intros E. rewrite E in Hin. exact Hin.
    + intros E. rewrite E in Hin. exact Hin.
Qed.

(** A form with an entry in its error dictionary did not validate. *)
Lemma errors_not_valid (req : request) (f : AdmissionForm.t) (n : string)
  (es : list string) :
  In (n, es)
    (AdmissionForm.errors
       (fst (AdmissionForm.validate valid_email req f))) ->
  snd (AdmissionForm.validate valid_email req f) = false.
Proof.
  unfold AdmissionForm.validate, AdmissionForm.errors.
  cbn [fst snd AdmissionForm.csrf_token AdmissionForm.student_name
       AdmissionForm.student_class AdmissionForm.age
       AdmissionForm.parent_email AdmissionForm.phone AdmissionForm.message].
  unfold field_errors, no_errors.
  repeat match goal with
         | |- context [match errors ?x with _ => _ end] =>
             destruct (errors x) eqn:?
         end; simpl; try reflexivity.
  intros [].
Qed.

(** C10: a submission whose age field reads as the integer 0 does not
    validate: [DataRequired] takes the value 0 for a missing one, the age
    field gets the required-field error, and no row is inserted. *)
Theorem admission_age_zero_rejected
  (now : Z) (req : request) (w : World) (v : string) :
  method req = POST ->
  form_get "age" (form req) = Some v ->
  Py.int v = Some 0 ->
  exists f,
    admission valid_email now req w = (w, mkReply [] (render_admission f))
    /\ data (AdmissionForm.age f) = Some 0
    /\ errors (AdmissionForm.age f) = ["This field is required."].
Proof.
  intros Hp Ha Hi.
  assert (Hage :
    AdmissionForm.age
      (fst (AdmissionForm.validate valid_email req (AdmissionForm.bind req)))
    = mkField (Some 0) [] ["This field is required."]).
  { unfold AdmissionForm.validate, AdmissionForm.bind.
    rewrite (formdata_POST _ Hp). cbn [fst AdmissionForm.age].
    rewrite (IntegerField_parsed _ _ _ Ha), Hi.
    rewrite DataRequired_fails; reflexivity. }
  exists (fst (AdmissionForm.validate valid_email req (AdmissionForm.bind req))).
  split; [|rewrite Hage; split; reflexivity].
  apply admission_rejected; [exact Hp|].
  apply (errors_not_valid req _ "age" ["This field is required."]).
  unfold AdmissionForm.errors.
  do 3 (apply in_or_app; right). apply in_or_app. left.
  rewrite Hage. now left.
Qed.

(** The rejection of a submission with an offending field, in the form the
    theorems below share. *)
Lemma offending_submission_rejected
  (now : Z) (req : request) (w : World) (name : string) :
  method req = POST ->
  offending req name ->
  let f := fst (AdmissionForm.validate valid_email req (AdmissionForm.bind req)) in
  admission valid_email now req w = (w, mkReply [] (render_admission f))
  /\ forall n, offending req n ->
       exists es, In (n, es) (AdmissionForm.errors f) /\ es <> [].
Proof.
  intros Hp Ho f. split.
  - apply admission_rejected; [exact Hp|].
    destruct (offending_has_errors req name Hp Ho) as (es & Hin & _).
    exact (errors_not_valid _ _ _ _ Hin).
  - intros n Hn. exact (offending_has_errors req n Hp Hn).
Qed.

(** C2: an admission submission that misses a required field, or whose age
    does not read as an integer, inserts no row (the world is returned as it
    was) and is answered with the form, whose error dictionary has a
    non-empty entry for every offending field. *)
Theorem admission_invalid_inserts_nothing
  (now : Z) (req : request) (w : World) (name : string) :
  method req = POST ->
  offending req name ->
  exists f,
    admission valid_email now req w = (w, mkReply [] (render_admission f))
    /\ forall n, offending req n ->
         exists es, In (n, es) (AdmissionForm.errors f) /\ es <> [].
Proof.
  intros Hp Ho. eexists.
  exact (offending_submission_rejected now req w name Hp Ho).
Qed.
(** C7: the parent email is required.  A submission in which it is missing
    or empty is answered with the form, carrying the error of the [Email]
    validator on that field, and nothing is stored; and whenever a
    submission validates, its parent email is present, not empty, passes the
    address syntax check and is at most 150 characters long. *)
Theorem parent_email_required (now : Z) (req : request) (w : World) :
  method req = POST ->
  (missing "parent_email" req ->
   exists f,
     admission valid_email now req w = (w, mkReply [] (render_admission f))
     /\ In "Invalid email address." (errors (AdmissionForm.parent_email f)))
  /\ (forall f,
        validate_on_submit (AdmissionForm.validate valid_email req) req
          (AdmissionForm.bind req) = (f, true) ->
        exists mail,
          form_get "parent_email" (form req) = Some mail
          /\ mail <> ""
          /\ valid_email mail = true
          /\ Py.len mail <= 150).
Proof.
  intros Hp. split.
  - intros Hm.
    destruct (offending_submission_rejected now req w "parent_email" Hp
                (offending_parent_email _ Hm)) as [Hadm _].
    eexists. split; [exact Hadm|].
    unfold AdmissionForm.validate, AdmissionForm.bind.
    rewrite (formdata_POST _ Hp). cbn [fst AdmissionForm.parent_email].
    now apply parent_email_missing.
  - intros f Hv.
    destruct (AdmissionForm_valid_inv _ _ Hv)
      as (_ & _ & _ & _ & (mail & Hm & Hok & Hlen & _) & _).
    exists mail. repeat split; try assumption.
    intros ->. rewrite valid_email_empty in Hok. discriminate.
Qed.

End Admission_properties.

(** ** Admin login *)

Section Login_properties.

Variable valid_email : string -> bool.
Variable check_password_hash : string -> string -> bool.

(** What a submission must look like for [LoginForm] to validate. *)
Lemma LoginForm_valid_inv (req : request) (f : LoginForm.t) :
  validate_on_submit (LoginForm.validate valid_email req) req
    (LoginForm.bind req) = (f, true) ->
  method req = POST
  /\ LoginForm.errors f = []
  /\ data (LoginForm.email f) = form_get "email" (form req)
  /\ data (LoginForm.password f) = form_get "password" (form req)
  /\ (exists e, form_get "email" (form req) = Some e
                /\ has_data e = true /\ valid_email e = true)
  /\ (exists p, form_get "password" (form req) = Some p /\ has_data p = true).
Proof.
  unfold validate_on_submit.
  destruct (is_submitted req) eqn:Hs; [|discriminate].
  apply is_submitted_POST in Hs.
  unfold LoginForm.validate, LoginForm.bind, LoginForm.errors.
  rewrite (formdata_POST _ Hs).
  intros [= <- Hok].
  rewrite !andb_true_iff in Hok.
  destruct Hok as [[Hc He] Hpw].
  cbn [LoginForm.csrf_token LoginForm.email LoginForm.password] in *.
  rewrite !validate_field_data by keeps.
  split; [exact Hs|]. split.
  - unfold field_errors, no_errors in *.
    repeat match goal with
           | H : context [match errors ?x with _ => _ end] |- _ =>
               destruct (errors x); [clear H | discriminate H]
           end.
    reflexivity.
  - split; [reflexivity|]. split; [reflexivity|]. split.
    + pose proof (DataRequired_no_errors _ _ He) as (e & E & Hd).
      exists e. split; [exact E|]. split; [exact Hd|].
      rewrite (DataRequired_passes _ _ e E Hd) in He.
      unfold validate_field, Email in He. cbn in He.
      cbn in E. rewrite E in He.
      destruct (valid_email e); [reflexivity | discriminate He].
    + pose proof (DataRequired_no_errors _ _ Hpw) as (p & E & Hd).
      exists p. split; assumption.
Qed.

Lemma find_by_id_of_member (l : list Admin.t) (a : Admin.t) (uid : Z) :
  In a l -> Admin.id a = Some uid ->
  exists a', find (fun x => match Admin.id x with
                            | Some i => i =? uid
                            | None => false
                            end) l = Some a'.
Proof.
  intros Hin Hid.
  destruct (find _ l) as [a'|] eqn:E; [now exists a'|].
  apply (find_none _ _ E) in Hin. rewrite Hid, Z.eqb_refl in Hin.
  discriminate.
Qed.

(** C3 (as amended): among login submissions that pass [LoginForm]'s
    validators, one whose email belongs to no Administrator and one whose
    email belongs to an Administrator but whose password fails the check get
    the same outcome: the single flash "Invalid credentials", the login page
    with an empty error dictionary, an untouched store and a session that
    stays anonymous.  A validated submission with an Administrator's email
    and a password that passes the check stores that Administrator's
    identifier in the session, which is then authenticated, and redirects to
    the dashboard. *)
Theorem admin_login_outcomes :
  (forall (req1 req2 : request) (w1 w2 : World) (f1 f2 : LoginForm.t)
          (admin : Admin.t),
      validate_on_submit (LoginForm.validate valid_email req1) req1
        (LoginForm.bind req1) = (f1, true) ->
      validate_on_submit (LoginForm.validate valid_email req2) req2
        (LoginForm.bind req2) = (f2, true) ->
      user_id w1 = None -> user_id w2 = None ->
      filter_by_email (db w1) (form_get "email" (form req1)) = None ->
      filter_by_email (db w2) (form_get "email" (form req2)) = Some admin ->
      check_password check_password_hash admin (form_get "password" (form req2))
      = Some false ->
      admin_login valid_email check_password_hash req1 w1
      = (w1, mkReply [("danger", "Invalid credentials")] (render_admin_login f1))
      /\ admin_login valid_email check_password_hash req2 w2
         = (w2, mkReply [("danger", "Invalid credentials")] (render_admin_login f2))
      /\ LoginForm.errors f1 = [] /\ LoginForm.errors f2 = []
      /\ is_authenticated w1 = false /\ is_authenticated w2 = false)
  /\ (forall (req : request) (w : World) (f : LoginForm.t) (admin : Admin.t)
             (uid : Z),
         validate_on_submit (LoginForm.validate valid_email req) req
           (LoginForm.bind req) = (f, true) ->
         user_id w = None ->
         filter_by_email (db w) (form_get "email" (form req)) = Some admin ->
         check_password check_password_hash admin (form_get "password" (form req))
         = Some true ->
         Admin.id admin = Some uid ->
         admin_login valid_email check_password_hash req w
         = (mkWorld (db w) (Some uid),
            mkReply [("success", "Logged in successfully")]
              (redirect "admin_dashboard"))
         /\ is_authenticated w = false
         /\ is_authenticated (mkWorld (db w) (Some uid)) = true).
Proof.
  split.
  - intros req1 req2 w1 w2 f1 f2 admin Hv1 Hv2 Hu1 Hu2 Hno Hyes Hbad.
    destruct (LoginForm_valid_inv _ _ Hv1) as (_ & He1 & De1 & _).
    destruct (LoginForm_valid_inv _ _ Hv2) as (_ & He2 & De2 & Dp2 & _).
    unfold admin_login. rewrite Hv1, Hv2.
    rewrite De1, De2, Dp2, Hno, Hyes, Hbad.
    unfold is_authenticated, current_user. rewrite Hu1, Hu2.
    repeat split; assumption.
  - intros req w f admin uid Hv Hu Hyes Hgood Hid.
    destruct (LoginForm_valid_inv _ _ Hv) as (_ & _ & De & Dp & _).
    unfold admin_login. rewrite Hv, De, Dp, Hyes, Hgood.
    unfold login_user. rewrite Hid.
    split; [reflexivity|].
    unfold is_authenticated, current_user, load_user, get_admin.
    rewrite Hu. cbn [user_id db]. split; [reflexivity|].
    apply find_some in Hyes. destruct Hyes as [Hin _].
    destruct (find_by_id_of_member _ _ _ Hin Hid) as (a' & ->).
    reflexivity.
Qed.

End Login_properties.

(** ** Add notice *)

Lemma login_required_authenticated (view : World -> World * Reply) (w : World) :
  is_authenticated w = true -> login_required view w = view w.
Proof. unfold login_required. now intros ->. Qed.

Lemma truthy_opt_missing (name : string) (req : request) :
  missing name req -> Py.truthy_opt (form_get name (form req)) = false.
Proof. intros [-> | ->]; reflexivity. Qed.

(** C4: for a request of an authenticated session, [add_notice] appends
    exactly one Notice row, dated with the time of the insert, when title and
    content are both present and non-empty; when either is missing or empty
    it inserts nothing, flashes nothing and redirects to the dashboard. *)
Theorem add_notice_inserts_or_skips (now : Z) (req : request) (w : World) :
  is_authenticated w = true ->
  (forall t c,
      form_get "title" (form req) = Some t -> t <> "" ->
      form_get "content" (form req) = Some c -> c <> "" ->
      add_notice now req w
      = (mkWorld
           (mkDB (admins (db w)) (admissions (db w))
              (notices (db w)
               ++ [Notice.mk (Some (next_id (map Notice.id (notices (db w)))))
                     (Some t) (Some c) (Some now)]))
           (user_id w),
         mkReply [("success", "Notice added")] (redirect "admin_dashboard")))
  /\ (missing "title" req \/ missing "content" req ->
      add_notice now req w = (w, mkReply [] (redirect "admin_dashboard"))).
Proof.
  intros Ha. unfold add_notice.
  rewrite login_required_authenticated by exact Ha. split.
  - intros t c Ht Hnt Hc Hnc. rewrite Ht, Hc. cbn [Py.truthy_opt].
    rewrite (truthy_of_nonempty _ Hnt), (truthy_of_nonempty _ Hnc).
    reflexivity.
  - intros [Hm | Hm]; rewrite (truthy_opt_missing _ _ Hm).
    + reflexivity.
    + rewrite andb_false_r. reflexivity.
Qed.

(** ** Listings *)

Section Ordering.

Context {A : Type}.
Variable key : A -> option Z.

Lemma ts_leb_total (x y : option Z) : ts_leb x y = false -> ts_leb y x = true.
Proof.
  destruct x as [a|], y as [b|]; simpl; try congruence.
  rewrite Z.leb_gt, Z.leb_le. lia.
Qed.

Lemma ts_leb_trans (x y z : option Z) :
  ts_leb x y = true -> ts_leb y z = true -> ts_leb x z = true.
Proof.
  destruct x as [a|], y as [b|], z as [c|]; simpl; try congruence.
  rewrite !Z.leb_le. lia.
Qed.

Lemma insert_desc_perm (x : A) (l : list A) :
  Permutation (insert_desc key x l) (x :: l).
Proof.
  induction l as [|y r IH]; simpl.
  - apply Permutation_refl.
  - destruct (ts_leb (key y) (key x)).
    + apply Permutation_refl.
    + apply perm_trans with (y :: x :: r).
      * now apply perm_skip.
      * apply perm_swap.
Qed.

Lemma order_by_desc_perm (l : list A) : Permutation (order_by_desc key l) l.
Proof.
  induction l as [|x r IH]; simpl.
  - apply perm_nil.
  - apply perm_trans with (x :: order_by_desc key r).
    + apply insert_desc_perm.
    + now apply perm_skip.
Qed.

Lemma insert_desc_hd (x y : A) (l : list A) :
  desc key y x -> HdRel (desc key) y l -> HdRel (desc key) y (insert_desc key x l).
Proof.
  intros Hyx Hl. destruct l as [|z r]; simpl.
  - now constructor.
  - destruct (ts_leb (key z) (key x)).
    + now constructor.
    + constructor. now inversion Hl.
Qed.

Lemma insert_desc_sorted (x : A) (l : list A) :
  Sorted (desc key) l -> Sorted (desc key) (insert_desc key x l).
Proof.
  induction 1 as [|y r Hs IH Hh]; simpl.
  - repeat constructor.
  - destruct (ts_leb (key y) (key x)) eqn:E.
    + constructor; [now constructor|]. constructor. exact E.
    + constructor; [exact IH|].
      apply insert_desc_hd; [|exact Hh].
      unfold desc. now apply ts_leb_total.
Qed.

Lemma order_by_desc_sorted (l : list A) : Sorted (desc key) (order_by_desc key l).
Proof.
  induction l as [|x r IH]; simpl.
  - constructor.
  - now apply insert_desc_sorted.
Qed.

(** The result of [order_by(key.desc())]: every row's key is at least the
    key of every row listed after it. *)
Lemma order_by_desc_strongly_sorted (l : list A) :
  StronglySorted (desc key) (order_by_desc key l).
Proof.
  apply Sorted_StronglySorted.
  - intros x y z Hxy Hyz. unfold desc in *. eapply ts_leb_trans; eassumption.
  - apply order_by_desc_sorted.
Qed.

End Ordering.

Lemma firstn_In {A : Type} (n : nat) (l : list A) (x : A) :
  In x (firstn n l) -> In x l.
Proof.
  revert n. induction l as [|y r IH]; intros [|n]; simpl; try tauto.
  intros [-> | H]; [now left | right; eauto].
Qed.

Lemma firstn_strongly_sorted {A : Type} (R : A -> A -> Prop) (n : nat) (l : list A) :
  StronglySorted R l -> StronglySorted R (firstn n l).
Proof.
  intros Hs. revert n. induction Hs as [|x r Hs IH Hall]; intros [|n]; simpl;
    try constructor.
  - apply IH.
  - rewrite Forall_forall in *. intros y Hy. apply Hall.
    exact (firstn_In n r y Hy).
Qed.

Lemma limit_length {A : Type} (n : nat) (l : list A) : (List.length (limit n l) <= n)%nat.
Proof. unfold limit. apply List.firstn_le_length. Qed.

(** C5: the home page lists the first five rows of the Notice table ordered
    by date descending: at most 5 rows, each from the table, each dated no
    earlier than every row after it.  The dashboard of an authenticated
    session lists the first fifty Admission rows ordered by submission time
    descending (at most 50, same ordering property) and every Notice row,
    ordered by date descending. *)
Theorem listings_bounded_and_ordered :
  (forall w : World,
      exists ns,
        index w = (w, mkReply [] (render_index ns))
        /\ (List.length ns <= 5)%nat
        /\ StronglySorted (desc Notice.date) ns
        /\ exists all, Permutation all (notices (db w))
                       /\ StronglySorted (desc Notice.date) all
                       /\ ns = firstn 5 all)
  /\ (forall w : World,
         is_authenticated w = true ->
         exists adms ns,
           admin_dashboard w = (w, mkReply [] (render_admin_dashboard adms ns))
           /\ (List.length adms <= 50)%nat
           /\ StronglySorted (desc Admission.submitted_at) adms
           /\ (exists all, Permutation all (admissions (db w))
                           /\ StronglySorted (desc Admission.submitted_at) all
                           /\ adms = firstn 50 all)
           /\ Permutation ns (notices (db w))
           /\ StronglySorted (desc Notice.date) ns).
Proof.
  split.
  - intros w.
    exists (limit 5 (order_by_desc Notice.date (notices (db w)))).
    split; [reflexivity|].
    split; [apply limit_length|].
    split; [apply firstn_strongly_sorted, order_by_desc_strongly_sorted|].
    exists (order_by_desc Notice.date (notices (db w))).
    split; [apply order_by_desc_perm|].
    split; [apply order_by_desc_strongly_sorted | reflexivity].
  - intros w Ha. unfold admin_dashboard.
    rewrite login_required_authenticated by exact Ha.
    exists (limit 50 (order_by_desc Admission.submitted_at (admissions (db w)))),
           (order_by_desc Notice.date (notices (db w))).
    split; [reflexivity|].
    split; [apply limit_length|].
    split; [apply firstn_strongly_sorted, order_by_desc_strongly_sorted|].
    split.
    + exists (order_by_desc Admission.submitted_at (admissions (db w))).
      split; [apply order_by_desc_perm|].
      split; [apply order_by_desc_strongly_sorted | reflexivity].
    + split; [apply order_by_desc_perm | apply order_by_desc_strongly_sorted].
Qed.

(** ** The bootstrap helper *)

Section Bootstrap_properties.

Variable generate_password_hash : string -> string -> string.

Lemma filter_by_email_member (d : DB) (a : Admin.t) (e : string) :
  In a (admins d) -> Admin.email a = Some e ->
  is_some (filter_by_email d (Some e)) = true.
Proof.
  intros Hin He. unfold filter_by_email.
  destruct (find _ (admins d)) eqn:E; [reflexivity|].
  apply (find_none _ _ E) in Hin. rewrite He in Hin. simpl in Hin.
  rewrite String.eqb_refl in Hin. discriminate.
Qed.

Lemma is_some_false {A : Type} (x : option A) : is_some x = false -> x = None.
Proof. destruct x; simpl; congruence. Qed.

(** C6 (as amended): when the store already holds an Administrator whose
    email is the typed email with the surrounding white space removed, a run
    of the helper leaves the store as it was.  With a non-empty email and a
    non-empty password it ends with "Admin already exists", printed by the
    helper's own lookup; with an empty email or password it ends with
    "Email and password are required". *)
Theorem create_admin_duplicate_email
  (salt email_in name_in password : string) (d : DB) :
  (exists a, In a (admins d) /\ Admin.email a = Some (Py.strip email_in)) ->
  fst (create_admin generate_password_hash salt email_in name_in password d) = d
  /\ (Py.strip email_in <> "" -> password <> "" ->
      snd (create_admin generate_password_hash salt email_in name_in password d)
      = printed "Admin already exists")
  /\ (Py.strip email_in = "" \/ password = "" ->
      snd (create_admin generate_password_hash salt email_in name_in password d)
      = printed "Email and password are required").
Proof.
  intros (a & Hin & He). unfold create_admin.
  rewrite (filter_by_email_member d a _ Hin He).
  destruct (Py.truthy (Py.strip email_in)) eqn:Te;
    destruct (Py.truthy password) eqn:Tp; simpl;
    (split; [reflexivity|]); split; try reflexivity;
    try (intros Hne Hnp; apply truthy_of_nonempty in Hne;
         apply truthy_of_nonempty in Hnp; congruence);
    intros [H0 | H0]; rewrite H0 in *; simpl in *; congruence.
Qed.

(** What a run of the helper does to the store. *)
Lemma create_admin_effect (salt email_in name_in password : string) (d : DB) :
  let d' := fst (create_admin generate_password_hash salt email_in name_in password d) in
  d' = d
  \/ (Py.strip email_in <> ""
      /\ password <> ""
      /\ d' = mkDB
                (admins d
                 ++ [Admin.mk (Some (next_id (map Admin.id (admins d))))
                       (Some (Py.strip email_in))
                       (Some (generate_password_hash salt password))
                       (Some (Py.strip name_in))])
                (admissions d) (notices d)).
Proof.
  unfold create_admin.
  destruct (Py.truthy (Py.strip email_in)) eqn:Te; simpl; [|now left].
  destruct (Py.truthy password) eqn:Tp; simpl; [|now left].
  destruct (is_some (filter_by_email d (Some (Py.strip email_in)))) eqn:Ef;
    [now left|].
  apply is_some_false in Ef.
  unfold add_commit_admin, set_password. cbn [Admin.email Admin.password_hash].
  rewrite Ef. simpl. right.
  split; [now apply truthy_true_inv|].
  split; [now apply truthy_true_inv | reflexivity].
Qed.

(** The store a run of the helper leaves depends on the password only
    through its being empty or not and through its hash. *)
Lemma create_admin_same_hash
  (salt email_in name_in password password' : string) (d : DB) :
  (password = "" <-> password' = "") ->
  generate_password_hash salt password = generate_password_hash salt password' ->
  create_admin generate_password_hash salt email_in name_in password d
  = create_admin generate_password_hash salt email_in name_in password' d.
Proof.
  intros Hempty Hhash. unfold create_admin, set_password.
  rewrite Hhash.
  replace (Py.truthy password') with (Py.truthy password); [reflexivity|].
  destruct password, password'; simpl; try reflexivity.
  - destruct Hempty as [He _]. specialize (He eq_refl). discriminate He.
  - destruct Hempty as [_ He]. specialize (He eq_refl). discriminate He.
Qed.

(** The helper looks the email up before it inserts, so the store's
    uniqueness error is never the way a run ends. *)
Lemma create_admin_never_raises
  (salt email_in name_in password : string) (d : DB) :
  snd (create_admin generate_password_hash salt email_in name_in password d)
  <> raised_IntegrityError.
Proof.
  unfold create_admin.
  destruct (Py.truthy (Py.strip email_in)); simpl; [|discriminate].
  destruct (Py.truthy password); simpl; [|discriminate].
  destruct (is_some (filter_by_email d (Some (Py.strip email_in)))) eqn:Ef;
    [discriminate|].
  apply is_some_false in Ef.
  unfold add_commit_admin, set_password. cbn [Admin.email Admin.password_hash].
  rewrite Ef. discriminate.
Qed.

End Bootstrap_properties.

(** ** Runs of the system *)

Section Run_properties.

Variable valid_email : string -> bool.
Variable generate_password_hash : string -> string -> string.
Variable check_password_hash : string -> string -> bool.

Lemma admission_grows (now : Z) (req : request) (w : World) :
  db (fst (admission valid_email now req w)) = db w
  \/ exists row,
       db (fst (admission valid_email now req w))
       = mkDB (admins (db w)) (admissions (db w) ++ [row]) (notices (db w)).
Proof.
  unfold admission.
  destruct (validate_on_submit _ req _) as [f [|]]; [|now left].
  unfold add_commit_admission. cbn [Admission.student_name Admission.age].
  destruct (binds_integer (data (AdmissionForm.age f))); [|now left].
  cbn [negb].
  destruct (data (AdmissionForm.student_name f)); [|now left].
  right. eexists. reflexivity.
Qed.

Lemma admin_login_db (req : request) (w : World) :
  db (fst (admin_login valid_email check_password_hash req w)) = db w.
Proof.
  unfold admin_login.
  destruct (validate_on_submit _ req _) as [f [|]]; [|reflexivity].
  destruct (filter_by_email _ _) as [a|]; [|reflexivity].
  destruct (check_password _ a _) as [[|]|]; reflexivity.
Qed.

Lemma add_notice_grows (now : Z) (req : request) (w : World) :
  db (fst (add_notice now req w)) = db w
  \/ exists row,
       db (fst (add_notice now req w))
       = mkDB (admins (db w)) (admissions (db w)) (notices (db w) ++ [row]).
Proof.
  unfold add_notice, login_required.
  destruct (is_authenticated w); [|now left].
  destruct (Py.truthy_opt (form_get "title" (form req))
            && Py.truthy_opt (form_get "content" (form req))); [|now left].
  unfold add_commit_notice. cbn [Notice.title Notice.content].
  destruct (form_get "title" (form req)); [|now left].
  destruct (form_get "content" (form req)); [|now left].
  right. eexists. reflexivity.
Qed.

(** A request appends at most one Admission or Notice row and never touches
    the Administrator table. *)
Lemma dispatch_grows (r : route) (req : request) (now : Z) (w : World) :
  db_grows (db w) (db (fst (dispatch valid_email check_password_hash r req now w)))
  /\ admins (db (fst (dispatch valid_email check_password_hash r req now w)))
     = admins (db w).
Proof.
  unfold dispatch.
  destruct (allowed r (method req)); [|split; [constructor | reflexivity]].
  destruct r.
  - split; [constructor | reflexivity].
  - destruct (admission_grows now req w) as [-> | (row & ->)];
      split; try constructor; reflexivity.
  - rewrite admin_login_db. split; [constructor | reflexivity].
  - unfold admin_dashboard, login_required.
    destruct (is_authenticated w); split; try constructor; reflexivity.
  - unfold admin_logout, login_required.
    destruct (is_authenticated w); split; try constructor; reflexivity.
  - destruct (add_notice_grows now req w) as [-> | (row & ->)];
      split; try constructor; reflexivity.
Qed.

Lemma step_grows (w : World) (e : event) :
  db_grows (db w)
    (db (fst (step valid_email generate_password_hash check_password_hash w e))).
Proof.
  destruct e as [r req now | email name password salt]; simpl.
  - pose proof (dispatch_grows r req now w) as [Hg _].
    destruct (dispatch _ _ r req now w) as [w' rep]. exact Hg.
  - pose proof (create_admin_effect generate_password_hash salt email name
                  password (db w)) as He.
    destruct (create_admin _ salt email name password (db w)) as [d' res].
    simpl in *. destruct He as [-> | (_ & _ & ->)]; constructor.
Qed.

Lemma db_grows_prefixes (d d' : DB) :
  db_grows d d' ->
  (exists l, admissions d' = (admissions d ++ l)%list)
  /\ (exists l, notices d' = (notices d ++ l)%list).
Proof.
  intros [ | a | a | n ]; simpl; split;
    solve [ exists []; now rewrite app_nil_r | eexists; reflexivity ].
Qed.

(** C9: Admission and Notice rows are append-only.  Over any sequence of
    operations (the six request handlers, under any method, and runs of the
    bootstrap helper) the Admission table and the Notice table of the final
    store are those of the initial store, unchanged and in place, followed by
    the rows added since. *)
Theorem admission_notice_append_only (es : list event) (w : World) :
  (exists added,
      admissions
        (db (run valid_email generate_password_hash check_password_hash w es))
      = (admissions (db w) ++ added)%list)
  /\ (exists added,
         notices
           (db (run valid_email generate_password_hash check_password_hash w es))
         = (notices (db w) ++ added)%list).
Proof.
  revert w. induction es as [|e es IH]; intros w; simpl.
  - split; exists []; now rewrite app_nil_r.
  - destruct (IH (fst (step valid_email generate_password_hash
                          check_password_hash w e)))
      as [(l1 & E1) (l2 & E2)].
    destruct (db_grows_prefixes _ _ (step_grows w e)) as [(k1 & F1) (k2 & F2)].
    split.
    + exists (k1 ++ l1)%list. rewrite E1, F1. now rewrite app_assoc.
    + exists (k2 ++ l2)%list. rewrite E2, F2. now rewrite app_assoc.
Qed.

Lemma hashed_from_more (es es' : list event) (a : Admin.t) :
  hashed_from generate_password_hash es a ->
  hashed_from generate_password_hash (es ++ es') a.
Proof.
  intros (email & name & password & salt & key & Hin & H).
  exists email, name, password, salt, key. split; [|exact H].
  apply in_or_app. now left.
Qed.

(** One step keeps every Administrator row traceable to a run of the
    helper. *)
Lemma step_hashed (prior : list event) (w : World) (e : event) :
  (forall a, In a (admins (db w)) -> hashed_from generate_password_hash prior a) ->
  forall a,
    In a (admins (db (fst (step valid_email generate_password_hash
                             check_password_hash w e)))) ->
    hashed_from generate_password_hash (prior ++ [e]) a.
Proof.
  intros Hinv a.
  destruct e as [r req now | email name password salt]; simpl.
  - pose proof (dispatch_grows r req now w) as [_ Ha].
    destruct (dispatch _ _ r req now w) as [w' rep]. simpl in *.
    rewrite Ha. intros Hin. apply hashed_from_more, Hinv, Hin.
  - pose proof (create_admin_effect generate_password_hash salt email name
                  password (db w)) as He.
    destruct (create_admin _ salt email name password (db w)) as [d' res].
    simpl in *. destruct He as [-> | (Hmail & Hp & ->)].
    + intros Hin. apply hashed_from_more, Hinv, Hin.
    + simpl. intros Hin. apply in_app_or in Hin. destruct Hin as [Hin | [<- | []]].
      * apply hashed_from_more, Hinv, Hin.
      * exists email, name, password, salt,
          (next_id (map Admin.id (admins (db w)))).
        split; [apply in_or_app; right; now left|].
        repeat (split; [assumption|]). reflexivity.
Qed.

Lemma run_hashed (es prior : list event) (w : World) :
  (forall a, In a (admins (db w)) -> hashed_from generate_password_hash prior a) ->
  forall a,
    In a (admins (db (run valid_email generate_password_hash
                        check_password_hash w es))) ->
    hashed_from generate_password_hash (prior ++ es) a.
Proof.
  revert prior w. induction es as [|e es IH]; intros prior w Hinv a; simpl.
  - rewrite app_nil_r. apply Hinv.
  - intros Hin.
    replace (prior ++ e :: es)%list with ((prior ++ [e]) ++ es)%list
      by (now rewrite <- app_assoc).
    apply (IH (prior ++ [e])%list
             (fst (step valid_email generate_password_hash check_password_hash w e)));
      [|exact Hin].
    apply step_hashed, Hinv.
Qed.

Lemma step_same_but_password (w : World) (e e' : event) :
  same_but_password generate_password_hash e e' ->
  fst (step valid_email generate_password_hash check_password_hash w e)
  = fst (step valid_email generate_password_hash check_password_hash w e').
Proof.
  intros [r req now | email name password password' salt Hempty Hhash].
  - reflexivity.
  - cbn [step].
    rewrite (create_admin_same_hash generate_password_hash salt email name
               password password' (db w) Hempty Hhash).
    reflexivity.
Qed.

(** C8: only a hash of the password is written to an Administrator row.
    In every store reached from the empty one by the operations, each
    Administrator row was written by a run of the bootstrap helper and is
    made of a key, the trimmed email, the trimmed name and the value
    [generate_password_hash] returned for the salt drawn and the password
    typed in that run: no column takes the password itself.  And the
    password reaches the system through that value alone: two sequences of
    operations that differ only in passwords typed at the helper, empty or
    not alike and with equal hashes, lead to the same store and session. *)
Theorem admin_password_only_hashed :
  (forall (es : list event) (a : Admin.t),
      In a (admins (db (run valid_email generate_password_hash
                          check_password_hash init es))) ->
      hashed_from generate_password_hash es a)
  /\ (forall (es es' : list event) (w : World),
         Forall2 (same_but_password generate_password_hash) es es' ->
         run valid_email generate_password_hash check_password_hash w es
         = run valid_email generate_password_hash check_password_hash w es').
Proof.
  split.
  - intros es a Hin.
    apply (run_hashed es [] init); [|exact Hin].
    intros a' [].
  - intros es es' w Hsame. revert w.
    induction Hsame as [|e e' es es' He _ IH]; intros w; cbn [run].
    + reflexivity.
    + rewrite (step_same_but_password w e e' He). apply IH.
Qed.

End Run_properties.

(* ================================================================= *)
(** * The properties at sample inputs *)



Lemma admission_invalid_inserts_nothing_witness :
  let req := Demo.post [("student_name", "Asha Rao"); ("age", "fourteen");
                        ("parent_email", "")] in
  exists f,
    admission Demo.valid_email 100 req init
    = (init, mkReply [] (render_admission f))
    /\ forall n, offending req n ->
         exists es, In (n, es) (AdmissionForm.errors f) /\ es <> [].
Proof.
  intros req.
  apply (admission_invalid_inserts_nothing Demo.valid_email eq_refl 100 req init
           "student_class" eq_refl).
  apply offending_student_class. left. reflexivity.
Defined.

Lemma admission_age_zero_rejected_witness :
  let req := Demo.post [("student_name", "Asha Rao"); ("student_class", "Class 9");
                        ("age", "0"); ("parent_email", "p@example.com")] in
  exists f,
    admission Demo.valid_email 100 req init
    = (init, mkReply [] (render_admission f))
    /\ data (AdmissionForm.age f) = Some 0
    /\ errors (AdmissionForm.age f) = ["This field is required."].
Proof.
  intros req.
  exact (admission_age_zero_rejected Demo.valid_email 100 req init "0"
           eq_refl eq_refl eq_refl).
Defined.

Lemma parent_email_required_witness :
  let req := Demo.post [("student_name", "Asha Rao"); ("student_class", "Class 9");
                        ("age", "14")] in
  (missing "parent_email" req ->
   exists f,
     admission Demo.valid_email 100 req init
     = (init, mkReply [] (render_admission f))
     /\ In "Invalid email address." (errors (AdmissionForm.parent_email f)))
  /\ (forall f,
        validate_on_submit (AdmissionForm.validate Demo.valid_email req) req
          (AdmissionForm.bind req) = (f, true) ->
        exists mail,
          form_get "parent_email" (form req) = Some mail
          /\ mail <> ""
          /\ Demo.valid_email mail = true
          /\ Py.len mail <= 150).
Proof.
  intros req.
  exact (parent_email_required Demo.valid_email eq_refl 100 req init eq_refl).
Defined.

Lemma admin_login_outcomes_witness :
  let unknown := Demo.post [("email", "z@b.c"); ("password", "guess")] in
  let wrong := Demo.post [("email", "a@b.c"); ("password", "guess")] in
  let right := Demo.post [("email", "a@b.c"); ("password", "pw")] in
  let form_of req :=
    fst (LoginForm.validate Demo.valid_email req (LoginForm.bind req)) in
  (admin_login Demo.valid_email Demo.check_password_hash unknown Demo.world
   = (Demo.world,
      mkReply [("danger", "Invalid credentials")]
        (render_admin_login (form_of unknown)))
   /\ admin_login Demo.valid_email Demo.check_password_hash wrong Demo.world
      = (Demo.world,
         mkReply [("danger", "Invalid credentials")]
           (render_admin_login (form_of wrong)))
   /\ LoginForm.errors (form_of unknown) = []
   /\ LoginForm.errors (form_of wrong) = []
   /\ is_authenticated Demo.world = false
   /\ is_authenticated Demo.world = false)
  /\ (admin_login Demo.valid_email Demo.check_password_hash right Demo.world
      = (mkWorld (db Demo.world) (Some 1),
         mkReply [("success", "Logged in successfully")]
           (redirect "admin_dashboard"))
      /\ is_authenticated Demo.world = false
      /\ is_authenticated (mkWorld (db Demo.world) (Some 1)) = true).
Proof.
  intros unknown wrong right form_of.
  destruct (admin_login_outcomes Demo.valid_email Demo.check_password_hash)
    as [Hfail Hok].
  split.
  - apply (Hfail unknown wrong Demo.world Demo.world (form_of unknown)
             (form_of wrong) Demo.root); reflexivity.
  - apply (Hok right Demo.world (form_of right) Demo.root 1); reflexivity.
Defined.

(** C3, as stated, fails: an attempt with an Administrator's email and a
    blank password is a wrong-password attempt, yet it is stopped by the
    form's [DataRequired] and flashes nothing, while an attempt with an
    unknown email flashes "Invalid credentials". *)
Lemma admin_login_blank_password_differs :
  let unknown := Demo.post [("email", "z@b.c"); ("password", "guess")] in
  let blank := Demo.post [("email", "a@b.c"); ("password", "")] in
  user_id Demo.world = None
  /\ filter_by_email (db Demo.world) (form_get "email" (form unknown)) = None
  /\ filter_by_email (db Demo.world) (form_get "email" (form blank))
     = Some Demo.root
  /\ check_password Demo.check_password_hash Demo.root
       (form_get "password" (form blank)) = Some false
  /\ flashed (snd (admin_login Demo.valid_email Demo.check_password_hash
                     unknown Demo.world))
     = [("danger", "Invalid credentials")]
  /\ flashed (snd (admin_login Demo.valid_email Demo.check_password_hash
                     blank Demo.world))
     = []
  /\ LoginForm.errors
       (fst (LoginForm.validate Demo.valid_email blank (LoginForm.bind blank)))
     = [("password", ["This field is required."])].
Proof.
  repeat split; reflexivity.
Qed.

Lemma add_notice_inserts_or_skips_witness :
  let req := Demo.post [("title", "Holiday"); ("content", "School is closed.")] in
  (forall t c,
      form_get "title" (form req) = Some t -> t <> "" ->
      form_get "content" (form req) = Some c -> c <> "" ->
      add_notice 7 req Demo.signed_in
      = (mkWorld
           (mkDB (admins (db Demo.signed_in)) (admissions (db Demo.signed_in))
              (notices (db Demo.signed_in)
               ++ [Notice.mk
                     (Some (next_id (map Notice.id (notices (db Demo.signed_in)))))
                     (Some t) (Some c) (Some 7)]))
           (user_id Demo.signed_in),
         mkReply [("success", "Notice added")] (redirect "admin_dashboard")))
  /\ (missing "title" req \/ missing "content" req ->
      add_notice 7 req Demo.signed_in
      = (Demo.signed_in, mkReply [] (redirect "admin_dashboard"))).
Proof.
  intros req.
  exact (add_notice_inserts_or_skips 7 req Demo.signed_in eq_refl).
Defined.

Lemma create_admin_duplicate_email_witness :
  let run_it := create_admin Demo.generate_password_hash "s2" " a@b.c " "Again"
                  "other" (db Demo.world) in
  fst run_it = db Demo.world
  /\ (Py.strip " a@b.c " <> "" -> "other" <> "" ->
      snd run_it = printed "Admin already exists")
  /\ (Py.strip " a@b.c " = "" \/ "other" = "" ->
      snd run_it = printed "Email and password are required").
Proof.
  intros run_it.
  apply (create_admin_duplicate_email Demo.generate_password_hash "s2" " a@b.c "
           "Again" "other" (db Demo.world)).
  exists Demo.root. split; [left; reflexivity | reflexivity].
Defined.

(** C6, as stated, fails: with the email of an existing Administrator and an
    empty password the helper ends with the required-input message, which is
    neither its duplicate message nor the store's uniqueness error. *)
Lemma create_admin_empty_password_not_violation :
  let d := db Demo.world in
  let run_it := create_admin Demo.generate_password_hash "s2" "a@b.c" "Again" "" d in
  (exists a, In a (admins d) /\ Admin.email a = Some "a@b.c")
  /\ snd run_it = printed "Email and password are required"
  /\ ~ constraint_violation (snd run_it).
Proof.
  intros d run_it. split; [|split].
  - exists Demo.root. split; [left; reflexivity | reflexivity].
  - reflexivity.
  - intros [H | H]; discriminate H.
Qed.

Lemma admin_password_only_hashed_witness :
  let es := [cli_create_admin " a@b.c " "Root" "pw" "s1"] in
  (In Demo.root
     (admins (db (run Demo.valid_email Demo.generate_password_hash
                    Demo.check_password_hash init es)))
   /\ hashed_from Demo.generate_password_hash es Demo.root)
  /\ run Demo.valid_email Demo.generate_password_hash
       Demo.check_password_hash Demo.world
       [http route_index (Demo.get []) 1;
        cli_create_admin "a@b.c" "Again" "pw" "s2"]
     = run Demo.valid_email Demo.generate_password_hash
         Demo.check_password_hash Demo.world
         [http route_index (Demo.get []) 1;
          cli_create_admin "a@b.c" "Again" "pw" "s2"].
Proof.
  intros es.
  destruct (admin_password_only_hashed Demo.valid_email
              Demo.generate_password_hash Demo.check_password_hash)
    as [Hrows Hsame].
  split.
  - split; [left; reflexivity|].
    apply (Hrows es Demo.root). left. reflexivity.
  - apply Hsame.
    constructor; [apply same_http|].
    constructor; [|constructor].
    apply same_cli; [tauto | reflexivity].
Defined.

Lemma listings_bounded_and_ordered_witness :
  exists adms ns,
    admin_dashboard Demo.busy
    = (Demo.busy, mkReply [] (render_admin_dashboard adms ns))
    /\ (List.length adms <= 50)%nat
    /\ StronglySorted (desc Admission.submitted_at) adms
    /\ (exists all, Permutation all (admissions (db Demo.busy))
                    /\ StronglySorted (desc Admission.submitted_at) all
                    /\ adms = firstn 50 all)
    /\ Permutation ns (notices (db Demo.busy))
    /\ StronglySorted (desc Notice.date) ns.
Proof.
  apply (proj2 listings_bounded_and_ordered Demo.busy). reflexivity.
Defined.

(** The home page of a store with six notices shows the five latest. *)
Example index_five_latest :
  index Demo.busy
  = (Demo.busy,
     mkReply []
       (render_index [Demo.notice 3 60; Demo.notice 5 50; Demo.notice 6 40;
                      Demo.notice 1 30; Demo.notice 4 20])).
Proof. reflexivity. Qed.

(** The scenario of the specification: the submitted application is stored
    and, after a login, is the first one on the dashboard. *)
Example scenario_asha :
  let w := run Demo.valid_email Demo.generate_password_hash
             Demo.check_password_hash Demo.world
             [http route_admission Demo.asha 100;
              http route_admin_login
                (Demo.post [("email", "a@b.c"); ("password", "pw")]) 101] in
  let asha := Admission.mk (Some 1) (Some "Asha Rao") (Some "Class 9") (Some 14)
                (Some "p@example.com") (Some "") (Some "") (Some 100) in
  snd (dispatch Demo.valid_email Demo.check_password_hash route_admin_dashboard
         (mkRequest GET [] None) 102 w)
  = mkReply [] (render_admin_dashboard [asha] []).
Proof. reflexivity. Qed.

(* ================================================================= *)
(** * Further properties of the forms *)

(** ** The error list of each field *)

Lemma no_errors_iff {A : Type} (f : Field A) :
  no_errors f = true <-> errors f = [].
Proof.
  unfold no_errors. destruct (errors f); split; congruence.
Qed.

(** [DataRequired] followed by [Length]. *)
Lemma required_length_errors (max : Z) (d : option string) :
  errors (validate_field [DataRequired; Length max] (mkField d [] []))
  = match d with
    | Some s =>
        if has_data s
        then if Py.len s <=? max then [] else [length_message max]
        else [required_message]
    | None => [required_message]
    end.
Proof.
  destruct d as [s|].
  - destruct (has_data s) eqn:Hd.
    + rewrite (DataRequired_passes [Length max] (mkField (Some s) [] []) s
                 eq_refl Hd).
      unfold validate_field, Length.
      cbn [run_validation_chain data process_errors set_errors errors].
      destruct (Py.len s <=? max); reflexivity.
    + rewrite DataRequired_fails by exact Hd. reflexivity.
  - rewrite DataRequired_fails by exact I. reflexivity.
Qed.

(** [DataRequired] alone, whatever processing reported. *)
Lemma required_errors {A : Type} `{FieldData A} (f : Field A) :
  errors (validate_field [DataRequired] f)
  = match data f with
    | Some d => if has_data d then process_errors f else [required_message]
    | None => [required_message]
    end.
Proof.
  destruct (data f) as [d|] eqn:E.
  - destruct (has_data d) eqn:Hd.
    + rewrite (DataRequired_passes _ _ d E Hd). reflexivity.
    + rewrite DataRequired_fails by (rewrite E; exact Hd). reflexivity.
  - rewrite DataRequired_fails by (rewrite E; exact I). reflexivity.
Qed.

(** [Email] followed by [Length]: the two messages add up. *)
Lemma email_length_errors (valid_email : string -> bool) (max : Z)
  (d : option string) :
  errors (validate_field [Email valid_email; Length max] (mkField d [] []))
  = (match d with
     | Some s => if valid_email s then [] else [invalid_email_message]
     | None => [invalid_email_message]
     end
     ++ match d with
        | Some s => if Py.len s <=? max then [] else [length_message max]
        | None => if 0 <=? max then [] else [length_message max]
        end)%list.
Proof.
  unfold validate_field, Email, Length.
  cbn [run_validation_chain data process_errors set_errors errors].
  destruct d as [s|].
  - destruct (valid_email s);
      cbn [run_validation_chain data process_errors set_errors errors
           append_error app];
      destruct (Py.len s <=? max); reflexivity.
  - cbn [run_validation_chain data process_errors set_errors errors
         append_error app].
    destruct (0 <=? max); reflexivity.
Qed.

(** [Length] alone. *)
Lemma length_errors (max : Z) (d : option string) :
  errors (validate_field [Length max] (mkField d [] []))
  = match d with
    | Some s => if Py.len s <=? max then [] else [length_message max]
    | None => if 0 <=? max then [] else [length_message max]
    end.
Proof.
  unfold validate_field, Length.
  cbn [run_validation_chain data process_errors set_errors errors].
  destruct d as [s|].
  - destruct (Py.len s <=? max); reflexivity.
  - destruct (0 <=? max); reflexivity.
Qed.

(** The check of the CSRF token. *)
Lemma csrf_errors (req : request) (d : option string) :
  errors (validate_field [validate_csrf_token req] (mkField d [] []))
  = match csrf_error req with
    | Some msg => [msg]
    | None => []
    end.
Proof.
  unfold validate_field, validate_csrf_token.
  cbn [run_validation_chain data process_errors set_errors errors].
  destruct (csrf_error req); reflexivity.
Qed.

Section Form_properties.

Variable valid_email : string -> bool.

(** The fields of the form a submission is validated into. *)
Lemma AdmissionForm_validate_POST (req : request) :
  method req = POST ->
  AdmissionForm.validate valid_email req (AdmissionForm.bind req)
  = AdmissionForm.validate valid_email req
      (AdmissionForm.mk
         (mkField (form_get "csrf_token" (form req)) [] [])
         (mkField (form_get "student_name" (form req)) [] [])
         (mkField (form_get "student_class" (form req)) [] [])
         (IntegerField "age" (Some (form req)))
         (mkField (form_get "parent_email" (form req)) [] [])
         (mkField (form_get "phone" (form req)) [] [])
         (mkField (form_get "message" (form req)) [] [])).
Proof.
  intros Hp. unfold AdmissionForm.bind. rewrite (formdata_POST _ Hp).
  reflexivity.
Qed.

Lemma age_field_errors (fd : MultiDict) :
  errors (validate_field [DataRequired] (IntegerField "age" (Some fd)))
  = match form_get "age" fd with
    | Some v =>
        match Py.int v with
        | Some n => if n =? 0 then [required_message] else []
        | None => [required_message]
        end
    | None => [required_message]
    end.
Proof.
  rewrite required_errors.
  destruct (form_get "age" fd) as [v|] eqn:E.
  - rewrite (IntegerField_parsed _ _ _ E).
    destruct (Py.int v) as [n|]; [|reflexivity].
    cbn [data process_errors has_data FieldData_int].
    destruct (n =? 0); reflexivity.
  - rewrite (IntegerField_absent _ _ E). reflexivity.
Qed.

(** X1: the age field of a submission shows one message or none.  Text that
    does not read as an integer, a missing value and the value 0 all end
    with "This field is required."; the message of the integer parser is
    wiped by [DataRequired] and never reaches the page. *)
Theorem age_errors_required_or_none (req : request) :
  method req = POST ->
  let f := fst (AdmissionForm.validate valid_email req (AdmissionForm.bind req)) in
  errors (AdmissionForm.age f)
  = match form_get "age" (form req) with
    | Some v =>
        match Py.int v with
        | Some n => if n =? 0 then ["This field is required."] else []
        | None => ["This field is required."]
        end
    | None => ["This field is required."]
    end
  /\ ~ In "Not a valid integer value." (errors (AdmissionForm.age f)).
Proof.
  intros Hp f. subst f. rewrite (AdmissionForm_validate_POST _ Hp).
  unfold AdmissionForm.validate. cbn [fst AdmissionForm.age].
  rewrite age_field_errors. split; [reflexivity|].
  destruct (form_get "age" (form req)) as [v|];
    [destruct (Py.int v) as [n|]; [destruct (n =? 0)|]|];
    simpl; intuition discriminate.
Qed.

(** X2: the errors of the parent email add up: a value that is both
    malformed and longer than 150 characters gets both messages, in the
    order of the validators; a missing value gets the address message
    alone. *)
Theorem parent_email_errors_add_up (req : request) :
  method req = POST ->
  errors (AdmissionForm.parent_email
            (fst (AdmissionForm.validate valid_email req (AdmissionForm.bind req))))
  = match form_get "parent_email" (form req) with
    | Some s =>
        ((if valid_email s then [] else ["Invalid email address."])
         ++ (if Py.len s <=? 150 then []
             else ["Field cannot be longer than 150 characters."]))%list
    | None => ["Invalid email address."]
    end.
Proof.
  intros Hp. rewrite (AdmissionForm_validate_POST _ Hp).
  unfold AdmissionForm.validate. cbn [fst AdmissionForm.parent_email].
  rewrite email_length_errors.
  destruct (form_get "parent_email" (form req)) as [s|]; reflexivity.
Qed.

(** X3: the errors of the student name: a missing or blank name (white
    space only) gets "This field is required." and nothing else, however
    long it is, because [DataRequired] stops the chain; a name with text in
    it gets the length message exactly when it has more than 200
    characters. *)
Theorem student_name_errors (req : request) :
  method req = POST ->
  errors (AdmissionForm.student_name
            (fst (AdmissionForm.validate valid_email req (AdmissionForm.bind req))))
  = match form_get "student_name" (form req) with
    | Some s =>
        if Py.truthy (Py.strip s)
        then if Py.len s <=? 200 then []
             else ["Field cannot be longer than 200 characters."]
        else ["This field is required."]
    | None => ["This field is required."]
    end.
Proof.
  intros Hp. rewrite (AdmissionForm_validate_POST _ Hp).
  unfold AdmissionForm.validate. cbn [fst AdmissionForm.student_name].
  rewrite required_length_errors.
  destruct (form_get "student_name" (form req)) as [s|]; [|reflexivity].
  cbn [has_data FieldData_str].
  destruct s as [|c s]; [reflexivity|].
  cbn [Py.truthy andb]. reflexivity.
Qed.

(** The validators of [AdmissionForm] pass on exactly the acceptable
    submissions. *)
Lemma AdmissionForm_accepts_iff (req : request) :
  snd (validate_on_submit (AdmissionForm.validate valid_email req) req
         (AdmissionForm.bind req)) = true
  <-> admission_acceptable valid_email req.
Proof.
  unfold validate_on_submit, is_submitted, admission_acceptable.
  destruct (method req) eqn:Hm.
  - split; [discriminate | intros (H & _); discriminate H].
  - rewrite (AdmissionForm_validate_POST _ Hm).
    unfold AdmissionForm.validate.
    cbn [snd AdmissionForm.csrf_token AdmissionForm.student_name
         AdmissionForm.student_class AdmissionForm.age
         AdmissionForm.parent_email AdmissionForm.phone AdmissionForm.message].
    rewrite !andb_true_iff, !no_errors_iff.
    rewrite csrf_errors, required_length_errors, age_field_errors,
      required_errors, email_length_errors, length_errors.
    cbn [data process_errors].
    split.
    + intros [[[[[[Hc Hn] Hcl] Ha] He] Hp] _].
      split; [reflexivity|].
      split; [destruct (csrf_error req); [discriminate Hc | reflexivity]|].
      split.
      { destruct (form_get "student_name" (form req)) as [s|];
          [|discriminate Hn].
        destruct (has_data s) eqn:Hd; [|discriminate Hn].
        destruct (Py.len s <=? 200) eqn:Hl; [|discriminate Hn].
        exists s. repeat split; trivial. now apply Z.leb_le. }
      split.
      { destruct (form_get "student_class" (form req)) as [s|];
          [|discriminate Hcl].
        destruct (has_data s) eqn:Hd; [|discriminate Hcl].
        exists s. split; trivial. }
      split.
      { destruct (form_get "age" (form req)) as [v|]; [|discriminate Ha].
        destruct (Py.int v) as [n|] eqn:Hi; [|discriminate Ha].
        destruct (n =? 0) eqn:Hz; [discriminate Ha|].
        exists v, n. repeat split; trivial. now apply Z.eqb_neq. }
      split.
      { destruct (form_get "parent_email" (form req)) as [s|];
          [|discriminate He].
        destruct (valid_email s) eqn:Hv; [|discriminate He].
        destruct (Py.len s <=? 150) eqn:Hl; [|discriminate He].
        exists s. repeat split; trivial. now apply Z.leb_le. }
      intros ph Hph. rewrite Hph in Hp.
      destruct (Py.len ph <=? 50) eqn:Hl; [|discriminate Hp].
      now apply Z.leb_le.
    + intros (_ & Hc & (s & -> & Hd & Hl) & (c & -> & Hdc)
              & (v & n & -> & -> & Hnz) & (m & -> & Hv & Hlm) & Hp).
      rewrite Hc, Hd, Hdc, Hv.
      apply Z.leb_le in Hl, Hlm. rewrite Hl, Hlm.
      apply Z.eqb_neq in Hnz. rewrite Hnz.
      repeat split.
      destruct (form_get "phone" (form req)) as [ph|]; [|reflexivity].
      specialize (Hp ph eq_refl). apply Z.leb_le in Hp. now rewrite Hp.
Qed.

(** What the admission handler does with an acceptable submission whose
    age the store holds. *)
Lemma admission_accepted (now : Z) (req : request) (w : World) :
  admission_acceptable valid_email req ->
  age_fits_store req ->
  exists row,
    admission valid_email now req w
    = (mkWorld
         (mkDB (admins (db w)) (admissions (db w) ++ [row]) (notices (db w)))
         (user_id w),
       mkReply [("success", "Application submitted. We will contact you soon.")]
         (redirect "admission"))
    /\ Admission.student_name row = form_get "student_name" (form req)
    /\ Admission.submitted_at row = Some now.
Proof.
  intros Hacc Hfit. apply AdmissionForm_accepts_iff in Hacc.
  unfold admission.
  destruct (validate_on_submit (AdmissionForm.validate valid_email req) req
              (AdmissionForm.bind req)) as [f ok] eqn:Hv.
  cbn [snd] in Hacc. subst ok.
  destruct (AdmissionForm_valid_inv valid_email _ _ Hv)
    as (_ & (name & En & Dn) & _ & (v & n & Ea & Ei & Da) & _).
  unfold add_commit_admission. cbn [Admission.student_name Admission.age].
  rewrite Dn, Da. cbn [binds_integer]. rewrite (Hfit v n Ea Ei). cbn [negb].
  eexists. split; [reflexivity|].
  cbn [Admission.student_name Admission.submitted_at or_default].
  split; [now rewrite En | reflexivity].
Qed.

(** What it does with an acceptable submission whose age the store does not
    hold. *)
Lemma admission_overflow (now : Z) (req : request) (w : World) :
  admission_acceptable valid_email req ->
  age_overflows req ->
  admission valid_email now req w = (w, mkReply [] internal_server_error).
Proof.
  intros Hacc (v' & n' & Ea' & Ei' & Hover).
  apply AdmissionForm_accepts_iff in Hacc.
  unfold admission.
  destruct (validate_on_submit (AdmissionForm.validate valid_email req) req
              (AdmissionForm.bind req)) as [f ok] eqn:Hv.
  cbn [snd] in Hacc. subst ok.
  destruct (AdmissionForm_valid_inv valid_email _ _ Hv)
    as (_ & _ & _ & (v & n & Ea & Ei & Da) & _).
  rewrite Ea in Ea'. injection Ea' as <-.
  rewrite Ei in Ei'. injection Ei' as <-.
  unfold add_commit_admission. cbn [Admission.age].
  rewrite Da. cbn [binds_integer]. rewrite Hover. reflexivity.
Qed.

(** What it does with any other request. *)
Lemma admission_unacceptable (now : Z) (req : request) (w : World) :
  ~ admission_acceptable valid_email req ->
  exists f, admission valid_email now req w
            = (w, mkReply [] (render_admission f)).
Proof.
  intros Hno. pose proof (AdmissionForm_accepts_iff req) as Hiff.
  unfold admission.
  destruct (validate_on_submit (AdmissionForm.validate valid_email req) req
              (AdmissionForm.bind req)) as [f ok].
  cbn [snd] in Hiff. destruct ok.
  - exfalso. apply Hno, Hiff. reflexivity.
  - exists f. reflexivity.
Qed.


(** X4: what the admission handler does, request by request.  It stores a
    row for the acceptable submissions whose age the store's 64-bit INTEGER
    column holds: a POST with an accepted CSRF token, a name with text in it
    of at most 200 characters, a class with text in it, an age that reads
    as a non-zero integer, a parent email that passes the address check and
    has at most 150 characters, and a phone that is absent or has at most
    50 characters.  An acceptable submission whose age the column does not
    hold ends in a server error and stores nothing.  Every other request
    gets the form back and changes nothing. *)
Theorem admission_stores_iff_acceptable (now : Z) (req : request) (w : World) :
  (admission_acceptable valid_email req -> age_fits_store req ->
   exists row,
     admission valid_email now req w
     = (mkWorld
          (mkDB (admins (db w)) (admissions (db w) ++ [row]) (notices (db w)))
          (user_id w),
        mkReply [("success", "Application submitted. We will contact you soon.")]
          (redirect "admission")))
  /\ (admission_acceptable valid_email req -> age_overflows req ->
      admission valid_email now req w = (w, mkReply [] internal_server_error))
  /\ (~ admission_acceptable valid_email req ->
      exists f, admission valid_email now req w
                = (w, mkReply [] (render_admission f))).
Proof.
  split; [|split].
  - intros Hacc Hfit.
    destruct (admission_accepted now req w Hacc Hfit) as (row & E & _).
    exists row. exact E.
  - apply admission_overflow.
  - apply admission_unacceptable.
Qed.

(** [DataRequired] followed by [Email]. *)
Lemma required_email_errors (d : option string) :
  errors (validate_field [DataRequired; Email valid_email] (mkField d [] []))
  = match d with
    | Some s =>
        if has_data s
        then if valid_email s then [] else [invalid_email_message]
        else [required_message]
    | None => [required_message]
    end.
Proof.
  destruct d as [s|].
  - destruct (has_data s) eqn:Hd.
    + rewrite (DataRequired_passes [Email valid_email]
                 (mkField (Some s) [] []) s eq_refl Hd).
      unfold validate_field, Email.
      cbn [run_validation_chain data process_errors set_errors errors].
      destruct (valid_email s); reflexivity.
    + rewrite DataRequired_fails by exact Hd. reflexivity.
  - rewrite DataRequired_fails by exact I. reflexivity.
Qed.

Lemma LoginForm_validate_POST (req : request) :
  method req = POST ->
  LoginForm.validate valid_email req (LoginForm.bind req)
  = LoginForm.validate valid_email req
      (LoginForm.mk
         (mkField (form_get "csrf_token" (form req)) [] [])
         (mkField (form_get "email" (form req)) [] [])
         (mkField (form_get "password" (form req)) [] [])).
Proof.
  intros Hp. unfold LoginForm.bind. rewrite (formdata_POST _ Hp).
  reflexivity.
Qed.

(** The validators of [LoginForm] pass on exactly the acceptable
    submissions. *)
Lemma LoginForm_accepts_iff (req : request) :
  snd (validate_on_submit (LoginForm.validate valid_email req) req
         (LoginForm.bind req)) = true
  <-> login_acceptable valid_email req.
Proof.
  unfold validate_on_submit, is_submitted, login_acceptable.
  destruct (method req) eqn:Hm.
  - split; [discriminate | intros (H & _); discriminate H].
  - rewrite (LoginForm_validate_POST _ Hm).
    unfold LoginForm.validate.
    cbn [snd LoginForm.csrf_token LoginForm.email LoginForm.password].
    rewrite !andb_true_iff, !no_errors_iff.
    rewrite csrf_errors, required_email_errors, required_errors.
    cbn [data process_errors].
    split.
    + intros [[Hc He] Hp].
      split; [reflexivity|].
      split; [destruct (csrf_error req); [discriminate Hc | reflexivity]|].
      split.
      { destruct (form_get "email" (form req)) as [s|]; [|discriminate He].
        destruct (has_data s) eqn:Hd; [|discriminate He].
        destruct (valid_email s) eqn:Hv; [|discriminate He].
        exists s. repeat split; trivial. }
      destruct (form_get "password" (form req)) as [s|]; [|discriminate Hp].
      destruct (has_data s) eqn:Hd; [|discriminate Hp].
      exists s. split; trivial.
    + intros (_ & Hc & (e & -> & Hd & Hv) & (p & -> & Hdp)).
      rewrite Hc, Hd, Hv, Hdp. repeat split.
Qed.

End Form_properties.

(* ================================================================= *)
(** * Further properties of login and bootstrap *)

Lemma find_app_none {A : Type} (p : A -> bool) (l l' : list A) :
  find p l = None -> find p (l ++ l') = find p l'.
Proof.
  induction l as [|x r IH]; simpl; [reflexivity|].
  destruct (p x); [discriminate | exact IH].
Qed.

Lemma find_app_some {A : Type} (p : A -> bool) (l l' : list A) (x : A) :
  find p l = Some x -> find p (l ++ l') = Some x.
Proof.
  induction l as [|y r IH]; simpl; [discriminate|].
  destruct (p y); [trivial | exact IH].
Qed.

Section Login_further.

Variable valid_email : string -> bool.
Variable generate_password_hash : string -> string -> string.
Variable check_password_hash : string -> string -> bool.

(** The two ways a login request can end. *)
Lemma admin_login_cases (req : request) (w : World) :
  fst (admin_login valid_email check_password_hash req w) = w
  \/ exists admin e p h,
       login_acceptable valid_email req
       /\ form_get "email" (form req) = Some e
       /\ form_get "password" (form req) = Some p
       /\ filter_by_email (db w) (Some e) = Some admin
       /\ Admin.password_hash admin = Some h
       /\ check_password_hash h p = true
       /\ admin_login valid_email check_password_hash req w
          = (mkWorld (db w) (Admin.id admin),
             mkReply [("success", "Logged in successfully")]
               (redirect "admin_dashboard")).
Proof.
  pose proof (LoginForm_accepts_iff valid_email req) as Hiff.
  unfold admin_login.
  destruct (validate_on_submit (LoginForm.validate valid_email req) req
              (LoginForm.bind req)) as [f ok] eqn:Hv.
  cbn [snd] in Hiff. destruct ok; [|now left].
  destruct (LoginForm_valid_inv valid_email _ _ Hv)
    as (_ & _ & De & Dp & (e & Ee & _) & (p & Ep & _)).
  rewrite De, Dp, Ee, Ep.
  destruct (filter_by_email (db w) (Some e)) as [admin|] eqn:Ef; [|now left].
  unfold check_password.
  destruct (Admin.password_hash admin) as [h|] eqn:Eh; [|now left].
  destruct (check_password_hash h p) eqn:Ec; [|now left].
  right. exists admin, e, p, h.
  split; [apply Hiff; reflexivity|].
  repeat split; assumption.
Qed.

(** X5: the login handler changes nothing unless the credentials check.
    Either the world is returned as it was, or the submission was
    acceptable to [LoginForm], its email is the email of a stored
    Administrator, [check_password_hash] accepted its password against that
    row's hash, and the session now holds that row's key. *)
Theorem admin_login_sound (req : request) (w : World) :
  fst (admin_login valid_email check_password_hash req w) = w
  \/ exists admin e p h,
       login_acceptable valid_email req
       /\ form_get "email" (form req) = Some e
       /\ form_get "password" (form req) = Some p
       /\ filter_by_email (db w) (Some e) = Some admin
       /\ Admin.password_hash admin = Some h
       /\ check_password_hash h p = true
       /\ admin_login valid_email check_password_hash req w
          = (mkWorld (db w) (Admin.id admin),
             mkReply [("success", "Logged in successfully")]
               (redirect "admin_dashboard")).
Proof. exact (admin_login_cases req w). Qed.

(** A submission [LoginForm] does not accept gets the form back, without a
    flash, and changes nothing. *)
Lemma admin_login_unacceptable (req : request) (w : World) :
  ~ login_acceptable valid_email req ->
  exists f, admin_login valid_email check_password_hash req w
            = (w, mkReply [] (render_admin_login f)).
Proof.
  intros Hno.
  pose proof (LoginForm_accepts_iff valid_email req) as Hiff.
  unfold admin_login.
  destruct (validate_on_submit (LoginForm.validate valid_email req) req
              (LoginForm.bind req)) as [f ok].
  cbn [snd] in Hiff. destruct ok.
  - exfalso. apply Hno, Hiff. reflexivity.
  - exists f. reflexivity.
Qed.

(** What the helper does when the email is not taken. *)
Lemma create_admin_fresh
  (salt email_in name_in password : string) (d : DB) :
  Py.strip email_in <> "" ->
  password <> "" ->
  filter_by_email d (Some (Py.strip email_in)) = None ->
  create_admin generate_password_hash salt email_in name_in password d
  = (mkDB
       (admins d
        ++ [Admin.mk (Some (next_id (map Admin.id (admins d))))
              (Some (Py.strip email_in))
              (Some (generate_password_hash salt password))
              (Some (Py.strip name_in))])
       (admissions d) (notices d),
     printed "Admin created.").
Proof.
  intros He Hp Hf. unfold create_admin.
  rewrite (truthy_of_nonempty _ He), (truthy_of_nonempty _ Hp), Hf.
  cbn [negb orb is_some].
  unfold add_commit_admin, set_password. cbn [Admin.email Admin.password_hash].
  rewrite Hf. reflexivity.
Qed.

(** X6: a run of the helper with an email that is not taken, non-empty
    after trimming, and a non-empty password appends exactly one
    Administrator row: a fresh key, the trimmed email, the trimmed name and
    the hash of the password; it ends with "Admin created.". *)
Theorem create_admin_creates
  (salt email_in name_in password : string) (d : DB) :
  Py.strip email_in <> "" ->
  password <> "" ->
  filter_by_email d (Some (Py.strip email_in)) = None ->
  create_admin generate_password_hash salt email_in name_in password d
  = (mkDB
       (admins d
        ++ [Admin.mk (Some (next_id (map Admin.id (admins d))))
              (Some (Py.strip email_in))
              (Some (generate_password_hash salt password))
              (Some (Py.strip name_in))])
       (admissions d) (notices d),
     printed "Admin created.").
Proof. exact (create_admin_fresh salt email_in name_in password d). Qed.

Lemma next_id_above (ids : list (option Z)) (n : Z) :
  In (Some n) ids -> n < next_id ids.
Proof.
  unfold next_id. induction ids as [|i r IH]; simpl; [tauto|].
  intros [-> | Hin].
  - lia.
  - specialize (IH Hin). destruct i; lia.
Qed.

Lemma next_id_fresh (ids : list (option Z)) : ~ In (Some (next_id ids)) ids.
Proof. intros Hin. apply next_id_above in Hin. lia. Qed.

(** X7: bootstrap and login fit together.  After the helper created an
    Administrator, a login submission that [LoginForm] accepts, carrying the
    trimmed email and the password typed at the prompt, logs that
    Administrator in, provided [check_password_hash] accepts the password
    against the hash [generate_password_hash] made of it. *)
Theorem create_admin_then_login
  (salt email_in name_in password : string) (d : DB) (req : request)
  (u : option Z) :
  filter_by_email d (Some (Py.strip email_in)) = None ->
  login_acceptable valid_email req ->
  form_get "email" (form req) = Some (Py.strip email_in) ->
  form_get "password" (form req) = Some password ->
  check_password_hash (generate_password_hash salt password) password = true ->
  let d' := fst (create_admin generate_password_hash salt email_in name_in
                   password d) in
  let key := next_id (map Admin.id (admins d)) in
  admin_login valid_email check_password_hash req (mkWorld d' u)
  = (mkWorld d' (Some key),
     mkReply [("success", "Logged in successfully")] (redirect "admin_dashboard"))
  /\ is_authenticated (mkWorld d' (Some key)) = true.
Proof.
  intros Hf Hacc Ee Ep Hck d' key.
  assert (He : Py.strip email_in <> "").
  { destruct Hacc as (_ & _ & (e & E & Hd & _) & _).
    rewrite Ee in E. injection E as <-. now apply has_data_str_nonempty. }
  assert (Hp : password <> "").
  { destruct Hacc as (_ & _ & _ & (p & E & Hd)).
    rewrite Ep in E. injection E as <-. now apply has_data_str_nonempty. }
  subst d' key.
  rewrite (create_admin_fresh salt email_in name_in password d He Hp Hf).
  cbn [fst].
  set (key := next_id (map Admin.id (admins d))).
  set (row := Admin.mk (Some key) (Some (Py.strip email_in))
                (Some (generate_password_hash salt password))
                (Some (Py.strip name_in))).
  set (d' := mkDB (admins d ++ [row]) (admissions d) (notices d)).
  assert (Hfind : filter_by_email d' (Some (Py.strip email_in)) = Some row).
  { unfold filter_by_email, d'. cbn [admins].
    rewrite find_app_none by exact Hf.
    simpl. rewrite String.eqb_refl. reflexivity. }
  split.
  - unfold admin_login.
    apply (LoginForm_accepts_iff valid_email) in Hacc.
    destruct (validate_on_submit (LoginForm.validate valid_email req) req
                (LoginForm.bind req)) as [f ok] eqn:Hv.
    cbn [snd] in Hacc. subst ok.
    destruct (LoginForm_valid_inv valid_email _ _ Hv)
      as (_ & _ & De & Dp & _).
    rewrite De, Dp, Ee, Ep. cbn [db]. rewrite Hfind.
    unfold check_password, row. cbn [Admin.password_hash]. rewrite Hck.
    reflexivity.
  - unfold is_authenticated, current_user, load_user, get_admin.
    cbn [user_id db].
    destruct (find_by_id_of_member (admins d') row key) as (a' & ->);
      [unfold d'; cbn [admins]; apply in_or_app; right; now left
      | reflexivity | reflexivity].
Qed.

(** X8: the helper is laxer than the login form.  It creates an
    Administrator whose password is white space only, or whose email fails
    the form's address check; but no login submission carrying that email
    and that password is ever accepted: the form comes back without a flash
    and nothing changes, whatever the store and the session. *)
Theorem bootstrap_accepts_what_login_refuses
  (salt email_in name_in password : string) (d : DB) :
  Py.strip email_in <> "" ->
  password <> "" ->
  filter_by_email d (Some (Py.strip email_in)) = None ->
  Py.strip password = "" \/ valid_email (Py.strip email_in) = false ->
  snd (create_admin generate_password_hash salt email_in name_in password d)
  = printed "Admin created."
  /\ forall req w,
       form_get "email" (form req) = Some (Py.strip email_in) ->
       form_get "password" (form req) = Some password ->
       exists f, admin_login valid_email check_password_hash req w
                 = (w, mkReply [] (render_admin_login f)).
Proof.
  intros He Hp Hf Hbad. split.
  - rewrite (create_admin_fresh salt email_in name_in password d He Hp Hf).
    reflexivity.
  - intros req w Ee Ep. apply admin_login_unacceptable.
    intros (_ & _ & (e & E & _ & Hv) & (p & E' & Hd)).
    rewrite Ee in E. injection E as <-.
    rewrite Ep in E'. injection E' as <-.
    destruct Hbad as [Hblank | Hinv].
    + cbn [has_data FieldData_str] in Hd. rewrite Hblank in Hd.
      rewrite andb_false_r in Hd. discriminate Hd.
    + congruence.
Qed.

(** X9: running the helper a second time with the same email, whatever the
    name and the (non-empty) password, is refused with "Admin already
    exists" and leaves the store as the first run made it. *)
Theorem create_admin_twice
  (salt salt' email_in name_in name_in' password password' : string) (d : DB) :
  Py.strip email_in <> "" ->
  password <> "" ->
  password' <> "" ->
  filter_by_email d (Some (Py.strip email_in)) = None ->
  let d1 := fst (create_admin generate_password_hash salt email_in name_in
                   password d) in
  create_admin generate_password_hash salt' email_in name_in' password' d1
  = (d1, printed "Admin already exists").
Proof.
  intros He Hp Hp' Hf d1. subst d1.
  rewrite (create_admin_fresh salt email_in name_in password d He Hp Hf).
  cbn [fst]. unfold create_admin.
  rewrite (truthy_of_nonempty _ He), (truthy_of_nonempty _ Hp').
  cbn [negb orb].
  unfold filter_by_email at 1. cbn [admins].
  rewrite find_app_none by exact Hf.
  simpl. rewrite String.eqb_refl. reflexivity.
Qed.

End Login_further.

(* ================================================================= *)
(** * Further properties of the gate and of requests *)

Section Gate_properties.

Variable valid_email : string -> bool.
Variable generate_password_hash : string -> string -> string.
Variable check_password_hash : string -> string -> bool.

(** X10: logout ends access.  Whatever the world, after the logout handler
    ran the session is anonymous and the store is as before; the dashboard,
    a further logout and add-notice are then all answered with the redirect
    to the login page and the "Please log in" flash, and add-notice inserts
    nothing. *)
Theorem logout_ends_access (now : Z) (req : request) (w : World) :
  let w' := fst (admin_logout w) in
  db w' = db w
  /\ is_authenticated w' = false
  /\ admin_dashboard w' = (w', unauthorized)
  /\ admin_logout w' = (w', unauthorized)
  /\ add_notice now req w' = (w', unauthorized).
Proof.
  intros w'.
  assert (Hdb : db w' = db w /\ is_authenticated w' = false).
  { subst w'. unfold admin_logout, login_required.
    destruct (is_authenticated w) eqn:Ha; cbn [fst]; [|now split].
    split; reflexivity. }
  destruct Hdb as [Hdb Hanon].
  split; [exact Hdb|]. split; [exact Hanon|].
  unfold admin_dashboard, admin_logout, add_notice, login_required.
  rewrite Hanon. repeat split.
Qed.

Lemma admission_GET (now : Z) (req : request) (w : World) :
  method req = GET ->
  admission valid_email now req w
  = (w, mkReply [] (render_admission (AdmissionForm.bind req))).
Proof.
  intros Hg. unfold admission, validate_on_submit, is_submitted.
  rewrite Hg. reflexivity.
Qed.

Lemma admin_login_GET (req : request) (w : World) :
  method req = GET ->
  admin_login valid_email check_password_hash req w
  = (w, mkReply [] (render_admin_login (LoginForm.bind req))).
Proof.
  intros Hg. unfold admin_login, validate_on_submit, is_submitted.
  rewrite Hg. reflexivity.
Qed.

(** X11: reading is safe.  No GET request, to any route, changes the store;
    the only GET that changes anything at all is the one to the logout
    route.  A GET of the admission or login page shows the empty form,
    without errors and without a flash, also when the query carries field
    values. *)
Theorem GET_changes_no_row (r : route) (req : request) (now : Z) (w : World) :
  method req = GET ->
  let out := dispatch valid_email check_password_hash r req now w in
  db (fst out) = db w
  /\ (r <> route_admin_logout -> fst out = w)
  /\ (r = route_admission ->
      out = (w, mkReply []
                  (render_admission
                     (AdmissionForm.mk unbound unbound unbound unbound
                        unbound unbound unbound))))
  /\ (r = route_admin_login ->
      out = (w, mkReply []
                  (render_admin_login (LoginForm.mk unbound unbound unbound)))).
Proof.
  intros Hg out. subst out. unfold dispatch. rewrite Hg.
  destruct r; cbn [allowed].
  - repeat split; discriminate.
  - rewrite (admission_GET now req w Hg).
    unfold AdmissionForm.bind, formdata, is_submitted. rewrite Hg.
    repeat split; discriminate.
  - rewrite (admin_login_GET req w Hg).
    unfold LoginForm.bind, formdata, is_submitted. rewrite Hg.
    repeat split; discriminate.
  - unfold admin_dashboard, login_required.
    destruct (is_authenticated w); repeat split; discriminate.
  - unfold admin_logout, login_required.
    destruct (is_authenticated w); repeat split; try discriminate;
      intros H; now elim H.
  - repeat split; discriminate.
Qed.

(** X12: a submission whose CSRF token is rejected never gets through a
    form.  The admission handler stores nothing and the login handler
    leaves the session alone, whatever the fields say; both answer with the
    form, whose [csrf_token] field carries the reason, and flash nothing. *)
Theorem csrf_rejected_changes_nothing
  (now : Z) (req : request) (w : World) (msg : string) :
  method req = POST ->
  csrf_error req = Some msg ->
  (exists f, admission valid_email now req w
             = (w, mkReply [] (render_admission f))
             /\ errors (AdmissionForm.csrf_token f) = [msg])
  /\ (exists f, admin_login valid_email check_password_hash req w
                = (w, mkReply [] (render_admin_login f))
                /\ errors (LoginForm.csrf_token f) = [msg]).
Proof.
  intros Hp Hc. split.
  - pose proof (AdmissionForm_accepts_iff valid_email req) as Hiff.
    unfold admission.
    assert (Hf : errors (AdmissionForm.csrf_token
                           (fst (validate_on_submit
                                   (AdmissionForm.validate valid_email req) req
                                   (AdmissionForm.bind req)))) = [msg]).
    { unfold validate_on_submit, is_submitted. rewrite Hp.
      rewrite (AdmissionForm_validate_POST valid_email _ Hp).
      unfold AdmissionForm.validate. cbn [fst AdmissionForm.csrf_token].
      rewrite csrf_errors, Hc. reflexivity. }
    destruct (validate_on_submit (AdmissionForm.validate valid_email req) req
                (AdmissionForm.bind req)) as [f ok].
    cbn [snd fst] in *. destruct ok.
    + exfalso. destruct (proj1 Hiff eq_refl) as (_ & Hnone & _). congruence.
    + exists f. split; [reflexivity | exact Hf].
  - pose proof (LoginForm_accepts_iff valid_email req) as Hiff.
    unfold admin_login.
    assert (Hf : errors (LoginForm.csrf_token
                           (fst (validate_on_submit
                                   (LoginForm.validate valid_email req) req
                                   (LoginForm.bind req)))) = [msg]).
    { unfold validate_on_submit, is_submitted. rewrite Hp.
      rewrite (LoginForm_validate_POST valid_email _ Hp).
      unfold LoginForm.validate. cbn [fst LoginForm.csrf_token].
      rewrite csrf_errors, Hc. reflexivity. }
    destruct (validate_on_submit (LoginForm.validate valid_email req) req
                (LoginForm.bind req)) as [f ok].
    cbn [snd fst] in *. destruct ok.
    + exfalso. destruct (proj1 Hiff eq_refl) as (_ & Hnone & _). congruence.
    + exists f. split; [reflexivity | exact Hf].
Qed.

(** Requests to routes other than login and logout, and runs of the
    helper, leave the session alone. *)
Lemma step_keeps_session (w : World) (e : event) :
  touches_session e = false ->
  user_id (fst (step valid_email generate_password_hash check_password_hash
                  w e))
  = user_id w.
Proof.
  destruct e as [r req now | email name password salt]; cbn [step].
  - intros Ht.
    replace (fst (let (w1, rep) :=
                    dispatch valid_email check_password_hash r req now w in
                  (w1, replied rep)))
      with (fst (dispatch valid_email check_password_hash r req now w))
      by (destruct (dispatch valid_email check_password_hash r req now w);
          reflexivity).
    unfold dispatch.
    destruct (allowed r (method req)); [|reflexivity].
    destruct r; try discriminate Ht.
    + reflexivity.
    + unfold admission.
      destruct (validate_on_submit _ req _) as [f [|]]; [|reflexivity].
      destruct (add_commit_admission _ _ _); reflexivity.
    + unfold admin_dashboard, login_required.
      destruct (is_authenticated w); reflexivity.
    + unfold add_notice, login_required.
      destruct (is_authenticated w); [|reflexivity].
      destruct (_ && _); [|reflexivity].
      destruct (add_commit_notice _ _ _); reflexivity.
  - intros _.
    destruct (create_admin _ salt email name password (db w)) as [d' res].
    reflexivity.
Qed.

(** X13: who may change what.  A request never changes the Administrator
    table, and only requests to the login and logout routes change the
    session; a run of the bootstrap helper never changes the session. *)
Theorem session_and_admins_untouched (w : World) (e : event) :
  let w' := fst (step valid_email generate_password_hash check_password_hash
                   w e) in
  (touches_session e = false -> user_id w' = user_id w)
  /\ (forall r req now, e = http r req now -> admins (db w') = admins (db w)).
Proof.
  intros w'. subst w'. split.
  - apply step_keeps_session.
  - intros r req now ->. cbn [step].
    pose proof (dispatch_grows valid_email check_password_hash r req now w)
      as [_ Ha].
    destruct (dispatch valid_email check_password_hash r req now w)
      as [w1 rep].
    exact Ha.
Qed.

End Gate_properties.

(* ================================================================= *)
(** * Further properties of the store *)

Lemma NoDup_snoc {A : Type} (l : list A) (x : A) :
  NoDup l -> ~ In x l -> NoDup (l ++ [x]).
Proof.
  intros Hl Hx. induction Hl as [|y r Hy Hr IH]; simpl.
  - constructor; [tauto | constructor].
  - constructor.
    + intros Hin. apply in_app_or in Hin. destruct Hin as [Hin | [-> | []]].
      * exact (Hy Hin).
      * apply Hx. now left.
    + apply IH. intros Hin. apply Hx. now right.
Qed.

Lemma Forall_snoc {A : Type} (P : A -> Prop) (l : list A) (x : A) :
  Forall P l -> P x -> Forall P (l ++ [x]).
Proof.
  intros Hl Hx. apply Forall_app. split; [exact Hl | now constructor].
Qed.

Lemma email_not_taken (d : DB) (e : string) :
  filter_by_email d (Some e) = None -> ~ In (Some e) (map Admin.email (admins d)).
Proof.
  unfold filter_by_email. intros Hf Hin.
  apply in_map_iff in Hin. destruct Hin as (a & Ha & Hin).
  apply (find_none _ _ Hf) in Hin. rewrite Ha in Hin. simpl in Hin.
  rewrite String.eqb_refl in Hin. discriminate.
Qed.

Section Store_properties.

Variable valid_email : string -> bool.
Variable generate_password_hash : string -> string -> string.
Variable check_password_hash : string -> string -> bool.

Lemma step_http_fst (w : World) (r : route) (req : request) (now : Z) :
  fst (step valid_email generate_password_hash check_password_hash w
         (http r req now))
  = fst (dispatch valid_email check_password_hash r req now w).
Proof.
  cbn [step].
  destruct (dispatch valid_email check_password_hash r req now w); reflexivity.
Qed.

(** What the admission handler does to the world. *)
Lemma admission_effect (now : Z) (req : request) (w : World) :
  fst (admission valid_email now req w) = w
  \/ exists row,
       fst (admission valid_email now req w)
       = mkWorld
           (mkDB (admins (db w)) (admissions (db w) ++ [row]) (notices (db w)))
           (user_id w)
       /\ response (snd (admission valid_email now req w)) = redirect "admission"
       /\ Admission.id row = Some (next_id (map Admission.id (admissions (db w))))
       /\ Admission.student_name row <> None
       /\ Admission.submitted_at row = Some now.
Proof.
  unfold admission.
  destruct (validate_on_submit _ req _) as [f [|]]; [|now left].
  unfold add_commit_admission. cbn [Admission.student_name Admission.age].
  destruct (binds_integer (data (AdmissionForm.age f))); [|now left].
  cbn [negb].
  destruct (data (AdmissionForm.student_name f)) as [s|]; [|now left].
  right. eexists. split; [reflexivity|].
  cbn [snd response Admission.id Admission.student_name
       Admission.submitted_at or_default].
  repeat split. discriminate.
Qed.

(** What the add-notice handler does to the world. *)
Lemma add_notice_effect (now : Z) (req : request) (w : World) :
  fst (add_notice now req w) = w
  \/ exists row,
       fst (add_notice now req w)
       = mkWorld
           (mkDB (admins (db w)) (admissions (db w)) (notices (db w) ++ [row]))
           (user_id w)
       /\ response (snd (add_notice now req w)) = redirect "admin_dashboard"
       /\ Notice.id row = Some (next_id (map Notice.id (notices (db w))))
       /\ Notice.title row <> None
       /\ Notice.content row <> None
       /\ Notice.date row = Some now.
Proof.
  unfold add_notice, login_required.
  destruct (is_authenticated w); [|now left].
  destruct (form_get "title" (form req)) as [t|]; [|now left].
  destruct (form_get "content" (form req)) as [c|];
    [|cbn [Py.truthy_opt]; rewrite andb_false_r; now left].
  destruct (Py.truthy_opt (Some t) && Py.truthy_opt (Some c)); [|now left].
  right. eexists. split; [reflexivity|].
  cbn [snd response Notice.id Notice.title Notice.content Notice.date
       or_default].
  repeat split; discriminate.
Qed.

(** What a run of the helper does to the store, with the row it adds. *)
Lemma create_admin_cases (salt email_in name_in password : string) (d : DB) :
  fst (create_admin generate_password_hash salt email_in name_in password d) = d
  \/ (filter_by_email d (Some (Py.strip email_in)) = None
      /\ fst (create_admin generate_password_hash salt email_in name_in password d)
         = mkDB
             (admins d
              ++ [Admin.mk (Some (next_id (map Admin.id (admins d))))
                    (Some (Py.strip email_in))
                    (Some (generate_password_hash salt password))
                    (Some (Py.strip name_in))])
             (admissions d) (notices d)).
Proof.
  destruct (Py.truthy (Py.strip email_in)) eqn:Te;
    [|left; unfold create_admin; rewrite Te; reflexivity].
  destruct (Py.truthy password) eqn:Tp;
    [|left; unfold create_admin; rewrite Te, Tp; reflexivity].
  destruct (filter_by_email d (Some (Py.strip email_in))) as [a|] eqn:Ef;
    [left; unfold create_admin; rewrite Te, Tp, Ef; reflexivity|].
  right. split; [reflexivity|].
  rewrite (create_admin_fresh generate_password_hash salt email_in name_in
             password d); trivial; now apply truthy_true_inv.
Qed.

(** One step leaves the store as it was or appends one row, whose key is
    fresh and whose required columns are set. *)
Lemma step_cases (w : World) (e : event) :
  let d := db w in
  let d' := db (fst (step valid_email generate_password_hash
                       check_password_hash w e)) in
  d' = d
  \/ (exists row em,
        d' = mkDB (admins d ++ [row]) (admissions d) (notices d)
        /\ Admin.id row = Some (next_id (map Admin.id (admins d)))
        /\ Admin.email row = Some em
        /\ filter_by_email d (Some em) = None
        /\ Admin.password_hash row <> None)
  \/ (exists row,
        d' = mkDB (admins d) (admissions d ++ [row]) (notices d)
        /\ Admission.id row = Some (next_id (map Admission.id (admissions d)))
        /\ Admission.student_name row <> None
        /\ Admission.submitted_at row <> None)
  \/ (exists row,
        d' = mkDB (admins d) (admissions d) (notices d ++ [row])
        /\ Notice.id row = Some (next_id (map Notice.id (notices d)))
        /\ Notice.title row <> None
        /\ Notice.content row <> None
        /\ Notice.date row <> None).
Proof.
  intros d d'. subst d d'.
  destruct e as [r req now | email name password salt]; cbn [step].
  - replace (fst (let (w1, rep) :=
                    dispatch valid_email check_password_hash r req now w in
                  (w1, replied rep)))
      with (fst (dispatch valid_email check_password_hash r req now w))
      by (destruct (dispatch valid_email check_password_hash r req now w);
          reflexivity).
    unfold dispatch.
    destruct (allowed r (method req)); [|now left].
    destruct r.
    + now left.
    + destruct (admission_effect now req w)
        as [-> | (row & -> & _ & Hid & Hn & Ht)]; [now left|].
      right. right. left. exists row. cbn [db].
      repeat split; trivial. rewrite Ht. discriminate.
    + rewrite admin_login_db. now left.
    + unfold admin_dashboard, login_required.
      destruct (is_authenticated w); now left.
    + unfold admin_logout, login_required.
      destruct (is_authenticated w); now left.
    + destruct (add_notice_effect now req w)
        as [-> | (row & -> & _ & Hid & Ht & Hc & Hd)]; [now left|].
      right. right. right. exists row. cbn [db].
      repeat split; trivial. rewrite Hd. discriminate.
  - replace (fst (let (d', res) :=
                    create_admin generate_password_hash salt email name
                      password (db w) in
                  (mkWorld d' (user_id w), cli res)))
      with (mkWorld
              (fst (create_admin generate_password_hash salt email name
                      password (db w)))
              (user_id w))
      by (destruct (create_admin generate_password_hash salt email name
                      password (db w)); reflexivity).
    cbn [db].
    destruct (create_admin_cases salt email name password (db w))
      as [-> | [Hf ->]]; [now left|].
    right. left. eexists. exists (Py.strip email).
    split; [reflexivity|]. cbn [Admin.id Admin.email Admin.password_hash].
    repeat split; trivial. discriminate.
Qed.

Lemma run_emails_distinct (es : list event) (w : World) :
  emails_distinct (db w) ->
  emails_distinct
    (db (run valid_email generate_password_hash check_password_hash w es)).
Proof.
  revert w. induction es as [|e es IH]; intros w Hw; cbn [run]; [exact Hw|].
  apply IH.
  destruct (step_cases w e)
    as [-> | [(row & em & -> & _ & He & Hf & _)
             | [(row & -> & _) | (row & -> & _)]]];
    try exact Hw.
  unfold emails_distinct in *. cbn [admins].
  rewrite map_app. cbn [map]. rewrite He.
  apply NoDup_snoc; [exact Hw | now apply email_not_taken].
Qed.

(** X14: Administrator emails stay unique.  If no two Administrators of a
    store share an email, the same holds after any sequence of requests and
    runs of the bootstrap helper: the helper's lookup keeps a taken email
    from being inserted again. *)
Theorem emails_stay_distinct (es : list event) (w : World) :
  emails_distinct (db w) ->
  emails_distinct
    (db (run valid_email generate_password_hash check_password_hash w es)).
Proof. exact (run_emails_distinct es w). Qed.

Lemma run_keys_distinct (es : list event) (w : World) :
  keys_distinct (db w) ->
  keys_distinct
    (db (run valid_email generate_password_hash check_password_hash w es)).
Proof.
  revert w. induction es as [|e es IH]; intros w Hw; cbn [run]; [exact Hw|].
  apply IH.
  destruct Hw as (Ha & Hs & Hn).
  destruct (step_cases w e)
    as [-> | [(row & em & -> & Hid & _)
             | [(row & -> & Hid & _) | (row & -> & Hid & _)]]];
    unfold keys_distinct; cbn [admins admissions notices];
    repeat split; trivial;
    rewrite map_app; cbn [map]; rewrite Hid;
    (apply NoDup_snoc; [assumption | apply next_id_fresh]).
Qed.

(** X15: primary keys stay unique.  If within each of the three tables no
    two rows share a key, the same holds after any sequence of requests and
    runs of the helper: a new row gets one more than the largest key of its
    table. *)
Theorem keys_stay_distinct (es : list event) (w : World) :
  keys_distinct (db w) ->
  keys_distinct
    (db (run valid_email generate_password_hash check_password_hash w es)).
Proof. exact (run_keys_distinct es w). Qed.

Lemma run_columns_set (es : list event) (w : World) :
  columns_set (db w) ->
  columns_set
    (db (run valid_email generate_password_hash check_password_hash w es)).
Proof.
  revert w. induction es as [|e es IH]; intros w Hw; cbn [run]; [exact Hw|].
  apply IH.
  destruct Hw as (Ha & Hs & Hn).
  destruct (step_cases w e)
    as [-> | [(row & em & -> & Hid & He & _ & Hh)
             | [(row & -> & Hid & Hname & Ht)
               | (row & -> & Hid & Ht & Hc & Hd)]]];
    unfold columns_set; cbn [admins admissions notices];
    repeat split; trivial; apply Forall_snoc; trivial.
  - unfold admin_columns_set. rewrite Hid, He.
    repeat split; trivial; discriminate.
  - unfold admission_columns_set. rewrite Hid.
    repeat split; trivial; discriminate.
  - unfold notice_columns_set. rewrite Hid.
    repeat split; trivial; discriminate.
Qed.

(** X16: the column rules of the schema hold in every store the system
    reaches.  If every row of a store has its key, its [nullable=False]
    columns and its time stamp set, the same holds after any sequence of
    requests and runs of the helper. *)
Theorem columns_stay_set (es : list event) (w : World) :
  columns_set (db w) ->
  columns_set
    (db (run valid_email generate_password_hash check_password_hash w es)).
Proof. exact (run_columns_set es w). Qed.

Lemma admin_hash_set (w : World) (a : Admin.t) (e : option string) :
  columns_set (db w) ->
  filter_by_email (db w) e = Some a ->
  In a (admins (db w)) /\ Admin.id a <> None /\ Admin.password_hash a <> None.
Proof.
  intros (Ha & _) Hf. apply find_some in Hf. destruct Hf as [Hin _].
  rewrite Forall_forall in Ha. destruct (Ha a Hin) as (Hid & _ & Hh).
  repeat split; assumption.
Qed.




Lemma is_authenticated_ext (w w' : World) :
  user_id w' = user_id w -> admins (db w') = admins (db w) ->
  is_authenticated w' = is_authenticated w.
Proof.
  unfold is_authenticated, current_user, load_user, get_admin.
  now intros -> ->.
Qed.

Lemma is_authenticated_grown (d : DB) (u : option Z) (row : Admin.t) :
  is_authenticated (mkWorld d u) = true ->
  is_authenticated
    (mkWorld (mkDB (admins d ++ [row]) (admissions d) (notices d)) u) = true.
Proof.
  unfold is_authenticated, current_user, load_user, get_admin.
  cbn [user_id db admins].
  destruct u as [uid|]; [|trivial].
  destruct (find _ (admins d)) as [a|] eqn:Ef; [|discriminate].
  intros _. now rewrite (find_app_some _ _ _ _ Ef).
Qed.

(** X18: a session stays logged in until it logs out.  In a store that
    keeps the column rules, an authenticated session is still
    authenticated after any operation other than a GET of the logout
    route: rows of the Administrator table are never removed, and a new
    login replaces the identifier by that of a stored row. *)
Theorem session_survives (w : World) (e : event) :
  columns_set (db w) ->
  is_authenticated w = true ->
  is_logout e = false ->
  is_authenticated
    (fst (step valid_email generate_password_hash check_password_hash w e))
  = true.
Proof.
  intros Hw Ha Hl.
  destruct e as [r req now | email name password salt].
  - rewrite step_http_fst.
    destruct (touches_session (http r req now)) eqn:Ht.
    + unfold dispatch. destruct r; try discriminate Ht; cbn [allowed].
      * destruct (admin_login_cases valid_email check_password_hash req w)
          as [-> | (admin & e & p & h & _ & _ & _ & Ef & _ & _ & ->)];
          [exact Ha|].
        cbn [fst].
        destruct (admin_hash_set w admin _ Hw Ef) as (Hin & Hid & _).
        destruct (Admin.id admin) as [uid|] eqn:Eid; [|congruence].
        unfold is_authenticated, current_user, load_user, get_admin.
        cbn [user_id db].
        destruct (find_by_id_of_member _ _ _ Hin Eid) as (a' & ->).
        reflexivity.
      * cbn [is_logout] in Hl.
        destruct (method req); [discriminate Hl | exact Ha].
    + rewrite <- Ha. apply is_authenticated_ext.
      * rewrite <- step_http_fst. now apply step_keeps_session.
      * apply dispatch_grows.
  - cbn [step].
    replace (fst (let (d', res) :=
                    create_admin generate_password_hash salt email name
                      password (db w) in
                  (mkWorld d' (user_id w), cli res)))
      with (mkWorld
              (fst (create_admin generate_password_hash salt email name
                      password (db w)))
              (user_id w))
      by (destruct (create_admin generate_password_hash salt email name
                      password (db w)); reflexivity).
    destruct (create_admin_cases salt email name password (db w))
      as [-> | [_ ->]].
    + destruct w; exact Ha.
    + apply is_authenticated_grown. destruct w; exact Ha.
Qed.

End Store_properties.

(* ================================================================= *)
(** * Further properties of the listings *)

Section Latest.

Context {A : Type}.
Variable key : A -> option Z.

Lemma insert_desc_below (x y : A) (l : list A) :
  ts_leb (key x) (key y) = false ->
  insert_desc key y (x :: l) = x :: insert_desc key y l.
Proof. intros H. cbn [insert_desc]. now rewrite H. Qed.

Lemma fold_insert_under (x : A) (t : Z) (l acc : list A) :
  key x = Some t ->
  later_than_all key t l ->
  fold_right (insert_desc key) (x :: acc) l
  = x :: fold_right (insert_desc key) acc l.
Proof.
  intros Hx. induction l as [|y r IH]; intros Hl; cbn [fold_right].
  - reflexivity.
  - rewrite IH by (intros z Hz; apply Hl; now right).
    apply insert_desc_below. rewrite Hx. apply Hl. now left.
Qed.

(** A row dated later than every row of the table comes first once it is
    appended. *)
Lemma order_by_desc_latest (x : A) (t : Z) (l : list A) :
  key x = Some t ->
  later_than_all key t l ->
  order_by_desc key (l ++ [x]) = x :: order_by_desc key l.
Proof.
  intros Hx Hl. unfold order_by_desc.
  rewrite fold_right_app. cbn [fold_right insert_desc].
  now apply fold_insert_under with (t := t).
Qed.

End Latest.

Section Listing_properties.

Variable valid_email : string -> bool.

(** X19: the newest application tops the dashboard.  When an acceptable
    submission whose age the store holds is handled at a time later than
    the time stamp of every stored application, its row is stored and the
    dashboard of an authenticated session lists it first. *)
Theorem latest_admission_first (now : Z) (req : request) (w : World) :
  is_authenticated w = true ->
  admission_acceptable valid_email req ->
  age_fits_store req ->
  later_than_all Admission.submitted_at now (admissions (db w)) ->
  let w' := fst (admission valid_email now req w) in
  exists row rest ns,
    admissions (db w') = (admissions (db w) ++ [row])%list
    /\ Admission.student_name row = form_get "student_name" (form req)
    /\ Admission.submitted_at row = Some now
    /\ admin_dashboard w'
       = (w', mkReply [] (render_admin_dashboard (row :: rest) ns)).
Proof.
  intros Ha Hacc Hfit Hlate w'. subst w'.
  destruct (admission_accepted valid_email now req w Hacc Hfit)
    as (row & -> & Hn & Ht).
  cbn [fst].
  exists row. do 2 eexists.
  split; [reflexivity|]. split; [exact Hn|]. split; [exact Ht|].
  unfold admin_dashboard.
  rewrite login_required_authenticated
    by (rewrite <- Ha; now apply is_authenticated_ext).
  cbn [db admissions notices].
  rewrite (order_by_desc_latest Admission.submitted_at row now _ Ht Hlate).
  unfold limit. cbn [firstn]. reflexivity.
Qed.

(** X20: the newest notice tops the home page.  When an authenticated
    session adds a notice with a title and a content at a time later than
    the date of every stored notice, the home page lists the new notice
    first. *)
Theorem latest_notice_first
  (now : Z) (req : request) (w : World) (t c : string) :
  is_authenticated w = true ->
  form_get "title" (form req) = Some t -> t <> "" ->
  form_get "content" (form req) = Some c -> c <> "" ->
  later_than_all Notice.date now (notices (db w)) ->
  let w' := fst (add_notice now req w) in
  exists rest,
    index w'
    = (w', mkReply []
             (render_index
                (Notice.mk (Some (next_id (map Notice.id (notices (db w)))))
                   (Some t) (Some c) (Some now) :: rest))).
Proof.
  intros Ha Et Hnt Ec Hnc Hlate w'. subst w'.
  unfold add_notice. rewrite login_required_authenticated by exact Ha.
  rewrite Et, Ec. cbn [Py.truthy_opt].
  rewrite (truthy_of_nonempty _ Hnt), (truthy_of_nonempty _ Hnc).
  cbn [andb]. unfold add_commit_notice.
  cbn [Notice.title Notice.content Notice.id Notice.date or_default fst].
  unfold index. cbn [db notices].
  rewrite (order_by_desc_latest Notice.date
             (Notice.mk (Some (next_id (map Notice.id (notices (db w)))))
                (Some t) (Some c) (Some now))
             now (notices (db w)) eq_refl Hlate).
  unfold limit. cbn [firstn]. eexists. reflexivity.
Qed.

End Listing_properties.

(* ================================================================= *)
(** * Further properties of sessions *)

Lemma find_all_false {A : Type} (p : A -> bool) (l : list A) :
  (forall x, In x l -> p x = false) -> find p l = None.
Proof.
  induction l as [|y r IH]; intros H; cbn [find]; [reflexivity|].
  rewrite (H y (or_introl eq_refl)). apply IH. intros x Hx. apply H. now right.
Qed.

Section Session_properties.

Variable valid_email : string -> bool.
Variable check_password_hash : string -> string -> bool.

(** X21: a session identifier that belongs to no Administrator grants
    nothing.  When the identifier kept in the session is the key of no row
    of the Administrator table, [load_user] finds nobody and the session is
    treated as anonymous: the dashboard, logout and add-notice answer with
    the redirect to the login page and change nothing. *)
Theorem stale_session_is_anonymous
  (now : Z) (req : request) (w : World) (uid : Z) :
  user_id w = Some uid ->
  (forall a, In a (admins (db w)) -> Admin.id a <> Some uid) ->
  current_user w = None
  /\ admin_dashboard w = (w, unauthorized)
  /\ admin_logout w = (w, unauthorized)
  /\ add_notice now req w = (w, unauthorized).
Proof.
  intros Hu Hnone.
  assert (Hc : current_user w = None).
  { unfold current_user, load_user, get_admin. rewrite Hu.
    apply find_all_false. intros a Hin. specialize (Hnone a Hin).
    destruct (Admin.id a) as [i|]; [|reflexivity].
    apply Z.eqb_neq. congruence. }
  split; [exact Hc|].
  unfold admin_dashboard, admin_logout, add_notice, login_required,
    is_authenticated.
  rewrite Hc. repeat split.
Qed.

(** The reply to a login request that does not end in the dashboard
    redirect, in a store that keeps the column rules. *)
Lemma failed_login_reply (req : request) (w : World) :
  columns_set (db w) ->
  response (snd (admin_login valid_email check_password_hash req w))
  <> redirect "admin_dashboard" ->
  snd (admin_login valid_email check_password_hash req w)
  = let (f, ok) := validate_on_submit (LoginForm.validate valid_email req) req
                     (LoginForm.bind req) in
    mkReply (if ok then [("danger", "Invalid credentials")] else [])
      (render_admin_login f).
Proof.
  intros Hw. unfold admin_login.
  destruct (validate_on_submit (LoginForm.validate valid_email req) req
              (LoginForm.bind req)) as [f [|]] eqn:Hv; [|reflexivity].
  destruct (LoginForm_valid_inv valid_email _ _ Hv)
    as (_ & _ & _ & Dp & _ & (p & Ep & _)).
  destruct (filter_by_email (db w) (data (LoginForm.email f)))
    as [a|] eqn:Ef; [|reflexivity].
  destruct (admin_hash_set w a _ Hw Ef) as (_ & _ & Hh).
  unfold check_password. rewrite Dp, Ep.
  destruct (Admin.password_hash a) as [h|]; [|congruence].
  destruct (check_password_hash h p); [|reflexivity].
  cbn [snd response]. congruence.
Qed.

(** X22: a failed login tells nothing about the store.  Take one login
    request and two stores that keep the column rules; if on neither the
    request ends in the redirect to the dashboard, the two replies are the
    same, flash and page: whether the email exists, and what is stored
    with it, cannot be read off the answer. *)
Theorem failed_login_reveals_nothing (req : request) (w1 w2 : World) :
  columns_set (db w1) ->
  columns_set (db w2) ->
  response (snd (admin_login valid_email check_password_hash req w1))
  <> redirect "admin_dashboard" ->
  response (snd (admin_login valid_email check_password_hash req w2))
  <> redirect "admin_dashboard" ->
  snd (admin_login valid_email check_password_hash req w1)
  = snd (admin_login valid_email check_password_hash req w2).
Proof.
  intros H1 H2 F1 F2.
  rewrite (failed_login_reply req w1 H1 F1), (failed_login_reply req w2 H2 F2).
  reflexivity.
Qed.

End Session_properties.

(* ================================================================= *)
(** * The further properties at sample inputs *)

Lemma Demo_world_columns_set : columns_set (db Demo.world).
Proof.
  repeat split; repeat constructor; discriminate.
Qed.

Lemma age_errors_required_or_none_witness :
  let req := Demo.post [("student_name", "Asha Rao"); ("age", "fourteen")] in
  let f := fst (AdmissionForm.validate Demo.valid_email req
                  (AdmissionForm.bind req)) in
  errors (AdmissionForm.age f)
  = match form_get "age" (form req) with
    | Some v =>
        match Py.int v with
        | Some n => if n =? 0 then ["This field is required."] else []
        | None => ["This field is required."]
        end
    | None => ["This field is required."]
    end
  /\ ~ In "Not a valid integer value." (errors (AdmissionForm.age f)).
Proof.
  intros req.
  exact (age_errors_required_or_none Demo.valid_email req eq_refl).
Defined.

Lemma parent_email_errors_add_up_witness :
  let req := Demo.post [("parent_email", Demo.letters 151)] in
  errors (AdmissionForm.parent_email
            (fst (AdmissionForm.validate Demo.valid_email req
                    (AdmissionForm.bind req))))
  = match form_get "parent_email" (form req) with
    | Some s =>
        ((if Demo.valid_email s then [] else ["Invalid email address."])
         ++ (if Py.len s <=? 150 then []
             else ["Field cannot be longer than 150 characters."]))%list
    | None => ["Invalid email address."]
    end.
Proof.
  intros req.
  exact (parent_email_errors_add_up Demo.valid_email req eq_refl).
Defined.

Lemma student_name_errors_witness :
  let req := Demo.post [("student_name", "   ")] in
  errors (AdmissionForm.student_name
            (fst (AdmissionForm.validate Demo.valid_email req
                    (AdmissionForm.bind req))))
  = match form_get "student_name" (form req) with
    | Some s =>
        if Py.truthy (Py.strip s)
        then if Py.len s <=? 200 then []
             else ["Field cannot be longer than 200 characters."]
        else ["This field is required."]
    | None => ["This field is required."]
    end.
Proof.
  intros req.
  exact (student_name_errors Demo.valid_email req eq_refl).
Defined.

Lemma Demo_asha_acceptable : admission_acceptable Demo.valid_email Demo.asha.
Proof.
  split; [reflexivity|]. split; [reflexivity|].
  split; [exists "Asha Rao"; repeat split; discriminate|].
  split; [exists "Class 9"; repeat split|].
  split; [exists "14", 14; repeat split; discriminate|].
  split; [exists "p@example.com"; repeat split; discriminate|].
  intros ph [= <-]. discriminate.
Defined.

Lemma Demo_asha_fits : age_fits_store Demo.asha.
Proof. intros v n [= <-] [= <-]. reflexivity. Qed.

Lemma Demo_too_old_acceptable :
  admission_acceptable Demo.valid_email Demo.too_old.
Proof.
  split; [reflexivity|]. split; [reflexivity|].
  split; [exists "Asha Rao"; repeat split; discriminate|].
  split; [exists "Class 9"; repeat split|].
  split; [exists "9223372036854775808", 9223372036854775808;
          repeat split; discriminate|].
  split; [exists "p@example.com"; repeat split; discriminate|].
  intros ph Hph. discriminate Hph.
Qed.

Lemma Demo_too_old_overflows : age_overflows Demo.too_old.
Proof.
  exists "9223372036854775808", 9223372036854775808. repeat split.
Qed.

Lemma admission_stores_iff_acceptable_witness :
  (exists row,
     admission Demo.valid_email 100 Demo.asha Demo.world
     = (mkWorld
          (mkDB (admins (db Demo.world)) (admissions (db Demo.world) ++ [row])
             (notices (db Demo.world)))
          (user_id Demo.world),
        mkReply [("success", "Application submitted. We will contact you soon.")]
          (redirect "admission")))
  /\ admission Demo.valid_email 100 Demo.too_old Demo.world
     = (Demo.world, mkReply [] internal_server_error).
Proof.
  split.
  - exact (proj1 (admission_stores_iff_acceptable Demo.valid_email 100
                    Demo.asha Demo.world)
             Demo_asha_acceptable Demo_asha_fits).
  - exact (proj1 (proj2 (admission_stores_iff_acceptable Demo.valid_email 100
                           Demo.too_old Demo.world))
             Demo_too_old_acceptable Demo_too_old_overflows).
Defined.

Lemma create_admin_creates_witness :
  create_admin Demo.generate_password_hash "s2" " head@school.org " " Head "
    "secret" (db Demo.world)
  = (mkDB
       (admins (db Demo.world)
        ++ [Admin.mk (Some (next_id (map Admin.id (admins (db Demo.world)))))
              (Some (Py.strip " head@school.org "))
              (Some (Demo.generate_password_hash "s2" "secret"))
              (Some (Py.strip " Head "))])
       (admissions (db Demo.world)) (notices (db Demo.world)),
     printed "Admin created.").
Proof.
  apply (create_admin_creates Demo.generate_password_hash "s2"
           " head@school.org " " Head " "secret" (db Demo.world));
    [discriminate | discriminate | reflexivity].
Defined.

Lemma Demo_login_acceptable :
  login_acceptable Demo.valid_email
    (Demo.post [("email", "a@b.c"); ("password", "pw")]).
Proof.
  split; [reflexivity|]. split; [reflexivity|].
  split; [exists "a@b.c"; repeat split | exists "pw"; repeat split].
Defined.

Lemma create_admin_then_login_witness :
  let req := Demo.post [("email", "a@b.c"); ("password", "pw")] in
  let d' := fst (create_admin Demo.generate_password_hash "s1" " a@b.c " "Root"
                   "pw" empty_db) in
  let key := next_id (map Admin.id (admins empty_db)) in
  admin_login Demo.valid_email Demo.check_password_hash req (mkWorld d' None)
  = (mkWorld d' (Some key),
     mkReply [("success", "Logged in successfully")] (redirect "admin_dashboard"))
  /\ is_authenticated (mkWorld d' (Some key)) = true.
Proof.
  intros req.
  exact (create_admin_then_login Demo.valid_email Demo.generate_password_hash
           Demo.check_password_hash "s1" " a@b.c " "Root" "pw" empty_db req None
           eq_refl Demo_login_acceptable eq_refl eq_refl eq_refl).
Defined.

Lemma bootstrap_accepts_what_login_refuses_witness :
  snd (create_admin Demo.generate_password_hash "s3" "admin" "Head" "   "
         (db Demo.world))
  = printed "Admin created."
  /\ forall req w,
       form_get "email" (form req) = Some (Py.strip "admin") ->
       form_get "password" (form req) = Some "   " ->
       exists f, admin_login Demo.valid_email Demo.check_password_hash req w
                 = (w, mkReply [] (render_admin_login f)).
Proof.
  apply (bootstrap_accepts_what_login_refuses Demo.valid_email
           Demo.generate_password_hash Demo.check_password_hash "s3" "admin"
           "Head" "   " (db Demo.world));
    [discriminate | discriminate | reflexivity | left; reflexivity].
Defined.

Lemma create_admin_twice_witness :
  let d1 := fst (create_admin Demo.generate_password_hash "s1" " a@b.c " "Root"
                   "pw" empty_db) in
  create_admin Demo.generate_password_hash "s2" " a@b.c " "Again" "other" d1
  = (d1, printed "Admin already exists").
Proof.
  exact (create_admin_twice Demo.generate_password_hash "s1" "s2" " a@b.c "
           "Root" "Again" "pw" "other" empty_db
           ltac:(discriminate) ltac:(discriminate) ltac:(discriminate) eq_refl).
Defined.

Lemma GET_changes_no_row_witness :
  let req := Demo.get [("student_name", "Asha Rao")] in
  let out := dispatch Demo.valid_email Demo.check_password_hash route_admission
               req 5 Demo.world in
  db (fst out) = db Demo.world
  /\ (route_admission <> route_admin_logout -> fst out = Demo.world)
  /\ (route_admission = route_admission ->
      out = (Demo.world,
             mkReply []
               (render_admission
                  (AdmissionForm.mk unbound unbound unbound unbound
                     unbound unbound unbound))))
  /\ (route_admission = route_admin_login ->
      out = (Demo.world,
             mkReply []
               (render_admin_login (LoginForm.mk unbound unbound unbound)))).
Proof.
  intros req.
  exact (GET_changes_no_row Demo.valid_email Demo.check_password_hash
           route_admission req 5 Demo.world eq_refl).
Defined.

Lemma csrf_rejected_changes_nothing_witness :
  let req := mkRequest POST (form Demo.asha) (Some "The CSRF token is missing.") in
  (exists f, admission Demo.valid_email 100 req Demo.world
             = (Demo.world, mkReply [] (render_admission f))
             /\ errors (AdmissionForm.csrf_token f)
                = ["The CSRF token is missing."])
  /\ (exists f, admin_login Demo.valid_email Demo.check_password_hash req
                  Demo.world
                = (Demo.world, mkReply [] (render_admin_login f))
                /\ errors (LoginForm.csrf_token f)
                   = ["The CSRF token is missing."]).
Proof.
  intros req.
  exact (csrf_rejected_changes_nothing Demo.valid_email
           Demo.check_password_hash 100 req Demo.world
           "The CSRF token is missing." eq_refl eq_refl).
Defined.

Lemma session_and_admins_untouched_witness :
  let e := http route_admission Demo.asha 100 in
  let w' := fst (step Demo.valid_email Demo.generate_password_hash
                   Demo.check_password_hash Demo.signed_in e) in
  user_id w' = user_id Demo.signed_in
  /\ admins (db w') = admins (db Demo.signed_in).
Proof.
  intros e.
  destruct (session_and_admins_untouched Demo.valid_email
              Demo.generate_password_hash Demo.check_password_hash
              Demo.signed_in e) as [Hs Ha].
  split; [exact (Hs eq_refl) | exact (Ha _ _ _ eq_refl)].
Defined.

Lemma emails_stay_distinct_witness :
  let es := [cli_create_admin "head@school.org" "Head" "secret" "s2";
             cli_create_admin " a@b.c " "Again" "other" "s3"] in
  emails_distinct
    (db (run Demo.valid_email Demo.generate_password_hash
           Demo.check_password_hash Demo.world es)).
Proof.
  intros es.
  apply (emails_stay_distinct Demo.valid_email Demo.generate_password_hash
           Demo.check_password_hash es Demo.world).
  repeat constructor. intros [].
Defined.

Lemma keys_stay_distinct_witness :
  let es := [http route_admission Demo.asha 100;
             cli_create_admin "head@school.org" "Head" "secret" "s2"] in
  keys_distinct
    (db (run Demo.valid_email Demo.generate_password_hash
           Demo.check_password_hash Demo.with_earlier es)).
Proof.
  intros es.
  apply (keys_stay_distinct Demo.valid_email Demo.generate_password_hash
           Demo.check_password_hash es Demo.with_earlier).
  repeat split; repeat constructor; intros [].
Defined.

Lemma columns_stay_set_witness :
  let es := [http route_admission Demo.asha 100;
             cli_create_admin "head@school.org" "Head" "secret" "s2"] in
  columns_set
    (db (run Demo.valid_email Demo.generate_password_hash
           Demo.check_password_hash Demo.world es)).
Proof.
  intros es.
  exact (columns_stay_set Demo.valid_email Demo.generate_password_hash
           Demo.check_password_hash es Demo.world Demo_world_columns_set).
Defined.


Lemma Demo_signed_in_columns_set : columns_set (db Demo.signed_in).
Proof. exact Demo_world_columns_set. Qed.

Lemma session_survives_witness :
  is_authenticated
    (fst (step Demo.valid_email Demo.generate_password_hash
            Demo.check_password_hash Demo.signed_in
            (http route_admin_login
               (Demo.post [("email", "a@b.c"); ("password", "guess")]) 9)))
  = true.
Proof.
  exact (session_survives Demo.valid_email Demo.generate_password_hash
           Demo.check_password_hash Demo.signed_in
           (http route_admin_login
              (Demo.post [("email", "a@b.c"); ("password", "guess")]) 9)
           Demo_signed_in_columns_set eq_refl eq_refl).
Defined.

Lemma latest_admission_first_witness :
  let w' := fst (admission Demo.valid_email 100 Demo.asha Demo.with_earlier) in
  exists row rest ns,
    admissions (db w') = (admissions (db Demo.with_earlier) ++ [row])%list
    /\ Admission.student_name row = form_get "student_name" (form Demo.asha)
    /\ Admission.submitted_at row = Some 100
    /\ admin_dashboard w'
       = (w', mkReply [] (render_admin_dashboard (row :: rest) ns)).
Proof.
  apply (latest_admission_first Demo.valid_email 100 Demo.asha
           Demo.with_earlier eq_refl Demo_asha_acceptable Demo_asha_fits).
  intros r [<- | []]. reflexivity.
Defined.

Lemma latest_notice_first_witness :
  let req := Demo.post [("title", "Holiday"); ("content", "School is closed.")] in
  let w' := fst (add_notice 70 req Demo.busy) in
  exists rest,
    index w'
    = (w', mkReply []
             (render_index
                (Notice.mk
                   (Some (next_id (map Notice.id (notices (db Demo.busy)))))
                   (Some "Holiday") (Some "School is closed.") (Some 70)
                 :: rest))).
Proof.
  intros req.
  apply (latest_notice_first 70 req Demo.busy "Holiday" "School is closed.");
    try reflexivity; try discriminate.
  intros r Hin. simpl in Hin.
  repeat (destruct Hin as [<- | Hin]; [reflexivity|]). destruct Hin.
Defined.

Lemma stale_session_is_anonymous_witness :
  let w := mkWorld (db Demo.world) (Some 7) in
  let req := Demo.post [("title", "Holiday"); ("content", "School is closed.")] in
  current_user w = None
  /\ admin_dashboard w = (w, unauthorized)
  /\ admin_logout w = (w, unauthorized)
  /\ add_notice 3 req w = (w, unauthorized).
Proof.
  intros w req.
  apply (stale_session_is_anonymous 3 req w 7 eq_refl).
  intros a [<- | []]. discriminate.
Defined.

Lemma failed_login_reveals_nothing_witness :
  let req := Demo.post [("email", "a@b.c"); ("password", "guess")] in
  snd (admin_login Demo.valid_email Demo.check_password_hash req Demo.world)
  = snd (admin_login Demo.valid_email Demo.check_password_hash req init).
Proof.
  intros req.
  apply (failed_login_reveals_nothing Demo.valid_email Demo.check_password_hash
           req Demo.world init Demo_world_columns_set).
  - repeat split; constructor.
  - discriminate.
  - discriminate.
Defined.
